(** * WebSummarizer: the SEO / GEO scoring engine

    A shallow embedding of [server/services/seo-analyzer.ts] (class
    [SeoAnalyzer]) together with the properties of its scorers.

    - ECMAScript strings are sequences of UTF-16 code units ([jsstring]).
    - Integer-valued numbers are [Z]; a quotient is an IEEE-754 double,
      kept as the rational it denotes, with NaN and the infinities.
    - [results.push(...)] and [score += n] are threaded as explicit state.
    - [new Date().getFullYear()] is an explicit argument: the calendar year
      shown by the clock of the environment at the time of the call. *)

From Stdlib Require Import ZArith NArith QArith Qround List String Ascii Bool Lia.
From Stdlib Require Import DecimalString Sorted.
Import ListNotations.

Open Scope string_scope.
Open Scope list_scope.
Open Scope Z_scope.

(** ** ECMAScript strings *)

Module Js.

Definition jsstring := list N.

(** The code units of a literal of this file (which is UTF-8 encoded). *)
Fixpoint utf16_of_utf8 (bs : list N) : list N :=
  match bs with
  | [] => []
  | b0 :: r0 =>
    if (b0 <? 128)%N then b0 :: utf16_of_utf8 r0
    else if (b0 <? 224)%N then
      match r0 with
      | b1 :: r1 => ((b0 mod 32) * 64 + b1 mod 64)%N :: utf16_of_utf8 r1
      | [] => [65533%N]
      end
    else if (b0 <? 240)%N then
      match r0 with
      | b1 :: b2 :: r2 =>
        ((b0 mod 16) * 4096 + (b1 mod 64) * 64 + b2 mod 64)%N :: utf16_of_utf8 r2
      | _ => [65533%N]
      end
    else
      match r0 with
      | b1 :: b2 :: b3 :: r3 =>
        let cp := ((b0 mod 8) * 262144 + (b1 mod 64) * 4096
                   + (b2 mod 64) * 64 + b3 mod 64 - 65536)%N in
        (55296 + cp / 1024)%N :: (56320 + cp mod 1024)%N :: utf16_of_utf8 r3
      | _ => [65533%N]
      end
  end.

Definition lit (s : string) : jsstring :=
  utf16_of_utf8 (map N_of_ascii (list_ascii_of_string s)).

Coercion lit : string >-> jsstring.

(** [s.length] *)
Definition length (s : jsstring) : Z := Z.of_nat (List.length s).

(** [!s] and the truthiness of a string: only the empty string is falsy. *)
Definition truthy (s : jsstring) : bool :=
  match s with [] => false | _ :: _ => true end.

Fixpoint eqb (s t : jsstring) : bool :=
  match s, t with
  | [], [] => true
  | c :: s', d :: t' => (c =? d)%N && eqb s' t'
  | _, _ => false
  end.

(** [s.startsWith(p)] *)
Fixpoint startsWith (s p : jsstring) : bool :=
  match p with
  | [] => true
  | c :: p' =>
    match s with
    | d :: s' => (c =? d)%N && startsWith s' p'
    | [] => false
    end
  end.

(** [s.includes(sub)] *)
Fixpoint includes (s sub : jsstring) : bool :=
  startsWith s sub
  || match s with
     | [] => false
     | _ :: s' => includes s' sub
     end.

(** [xs.includes(x)] on an array of strings. *)
Definition arrayIncludes (xs : list jsstring) (x : jsstring) : bool :=
  existsb (fun y => eqb y x) xs.

(** [xs.join(sep)] *)
Fixpoint join (xs : list jsstring) (sep : jsstring) : jsstring :=
  match xs with
  | [] => []
  | [x] => x
  | x :: rest => x ++ sep ++ join rest sep
  end.

(** WhiteSpace and LineTerminator of ECMAScript: the class [\s] of regular
    expressions and the code units removed by [trim]. *)
Definition isSpace (c : N) : bool :=
  ((9 <=? c) && (c <=? 13) || (c =? 32) || (c =? 160) || (c =? 5760)
   || (8192 <=? c) && (c <=? 8202) || (c =? 8232) || (c =? 8233)
   || (c =? 8239) || (c =? 8287) || (c =? 12288) || (c =? 65279))%N.

Definition isLineTerminator (c : N) : bool :=
  ((c =? 10) || (c =? 13) || (c =? 8232) || (c =? 8233))%N.

Definition isDigit (c : N) : bool := ((48 <=? c) && (c <=? 57))%N.
Definition isUpper (c : N) : bool := ((65 <=? c) && (c <=? 90))%N.
Definition isLower (c : N) : bool := ((97 <=? c) && (c <=? 122))%N.
Definition isWord (c : N) : bool :=
  isUpper c || isLower c || isDigit c || (c =? 95)%N.

Fixpoint trimStart (s : jsstring) : jsstring :=
  match s with
  | c :: s' => if isSpace c then trimStart s' else s
  | [] => []
  end.

(** [s.trim()] *)
Definition trim (s : jsstring) : jsstring :=
  rev (trimStart (rev (trimStart s))).

(** [s.split(sep)] for a non-empty separator: [skip] counts the code units
    of a separator occurrence still to be passed over, [cur] holds the
    current piece in reverse. *)
Fixpoint splitFrom (sep : jsstring) (skip : nat) (cur : jsstring)
         (s : jsstring) : list jsstring :=
  match s with
  | [] => [rev cur]
  | c :: s' =>
    match skip with
    | S k => splitFrom sep k cur s'
    | O =>
      if startsWith s sep
      then rev cur :: splitFrom sep (Nat.pred (List.length sep)) [] s'
      else splitFrom sep O (c :: cur) s'
    end
  end.

Definition split (s sep : jsstring) : list jsstring := splitFrom sep O [] s.

(** The decimal rendering of an integer, as [String(n)] and template
    literals produce it. *)
Definition toString (n : Z) : jsstring :=
  lit (NilZero.string_of_int (Z.to_int n)).

(** [String.prototype.toLowerCase]: the Unicode case mapping is a table of
    the host; the scorers are defined, and their properties proved, for any
    such mapping. *)
Class CaseMapping := toLowerCase : jsstring -> jsstring.

(** The mapping restricted to Basic Latin, with which ASCII text is
    evaluated. *)
Definition asciiLower : CaseMapping :=
  fun s => map (fun c => if isUpper c then (c + 32)%N else c) s.

End Js.

Import Js.

(** ** Regular expressions

    The fragment of ECMAScript patterns the analyzer uses, without flags
    other than [m] and [g]: a class or literal code unit, a greedy
    repetition [p{n,}] of a class ([*] is [AtLeast 0], [+] is [AtLeast 1]),
    the assertions [^] (under the [m] flag) and [\b], and concatenation.
    Matching is the backtracking of the standard: a continuation receives
    the code unit before the current position and the rest of the input. *)

Module RegExp.

Inductive re :=
| Unit (p : N -> bool)
| AtLeast (n : nat) (p : N -> bool)
| LineStart
| WordBoundary
| Seq (r1 r2 : re).

Definition position : Type := option N * jsstring.
Definition cont := option N -> jsstring -> option position.

Fixpoint greedy (p : N -> bool) (n : nat) (prev : option N) (s : jsstring)
         (k : cont) {struct s} : option position :=
  let stop := match n with O => k prev s | S _ => None end in
  match s with
  | c :: s' =>
    if p c then
      match greedy p (Nat.pred n) (Some c) s' k with
      | Some r => Some r
      | None => stop
      end
    else stop
  | [] => stop
  end.

Definition isWordAt (c : option N) : bool :=
  match c with Some c => isWord c | None => false end.

Fixpoint exec (r : re) (prev : option N) (s : jsstring) (k : cont)
  : option position :=
  match r with
  | Unit p =>
    match s with
    | c :: s' => if p c then k (Some c) s' else None
    | [] => None
    end
  | AtLeast n p => greedy p n prev s k
  | LineStart =>
    match prev with
    | None => k prev s
    | Some c => if isLineTerminator c then k prev s else None
    end
  | WordBoundary =>
    if xorb (isWordAt prev) (isWordAt (hd_error s)) then k prev s else None
  | Seq r1 r2 => exec r1 prev s (fun prev' s' => exec r2 prev' s' k)
  end.

(** The leftmost match at or after the current position: the input from
    the start of the match, and the position after it. *)
Fixpoint search (r : re) (prev : option N) (s : jsstring)
  : option (jsstring * position) :=
  match exec r prev s (fun p rest => Some (p, rest)) with
  | Some m => Some (s, m)
  | None =>
    match s with
    | [] => None
    | c :: s' => search r (Some c) s'
    end
  end.

(** [re.test(s)], and the truthiness of [s.match(re)] without the [g] flag. *)
Definition test (r : re) (s : jsstring) : bool :=
  match search r None s with Some _ => true | None => false end.

(** The number of matches [s.match(re)] collects under the [g] flag: after
    a match the search resumes where it ended, one code unit further when
    the match was empty. *)
Fixpoint countFrom (fuel : nat) (r : re) (prev : option N) (s : jsstring)
  : nat :=
  match fuel with
  | O => O
  | S fuel' =>
    match search r prev s with
    | None => O
    | Some (from, (prev', rest)) =>
      if (List.length rest =? List.length from)%nat then
        match from with
        | [] => 1%nat
        | c :: from' => S (countFrom fuel' r (Some c) from')
        end
      else S (countFrom fuel' r prev' rest)
    end
  end.

(** [(s.match(re) || []).length] for a [g] pattern. *)
Definition matchCount (r : re) (s : jsstring) : nat :=
  countFrom (S (List.length s)) r None s.

Definition chr (c : N) : re := Unit (N.eqb c).

(** The concatenation of the items of a pattern. *)
Fixpoint cat (rs : list re) : re :=
  match rs with
  | [] => AtLeast 0 (fun _ => false)
  | [r] => r
  | r :: rs' => Seq r (cat rs')
  end.

End RegExp.

(** ** Numbers

    Integer-valued numbers are [Z]. The quotients the analyzer forms are
    doubles: a finite double is the rational it denotes, and each
    operation rounds the exact result to the nearest double, ties to even
    (53-bit significand; the magnitudes met here are far inside the normal
    range). *)

Module Num.

Definition roundPos (n d : positive) : Q :=
  let g := Z.log2 (Zpos n) - Z.log2 (Zpos d) in
  let scaled (e : Z) : Z * Z :=
    if 0 <=? e then (Zpos n, Zpos d * 2 ^ e) else (Zpos n * 2 ^ (- e), Zpos d) in
  let lg :=
    let '(a, b) := scaled g in if b <=? a then g else g - 1 in
  let e := lg - 52 in
  let '(a, b) := scaled e in
  let m0 := a / b in
  let r := a mod b in
  let m :=
    if 2 * r <? b then m0
    else if b <? 2 * r then m0 + 1
    else if Z.even m0 then m0 else m0 + 1 in
  if 0 <=? e then inject_Z (m * 2 ^ e) else m # Z.to_pos (2 ^ (- e)).

Definition round (q : Q) : Q :=
  match Qnum q with
  | Z0 => 0%Q
  | Zpos n => roundPos n (Qden q)
  | Zneg n => (- roundPos n (Qden q))%Q
  end.

(** [a / b] and [a * b] on finite doubles, [b] not zero in the quotient. *)
Definition fdiv (a b : Q) : Q := round (a / b).
Definition fmul (a b : Q) : Q := round (a * b).

(** [Math.round]: the nearest integer, ties upwards. *)
Definition Math_round (x : Q) : Z := Qfloor (x + (1 # 2)).

Inductive number := Fin (q : Q) | PosInf | NegInf | NaN.

(** [a / b] on integers, where [b] may be zero. *)
Definition div (a b : Z) : number :=
  if b =? 0 then
    if a =? 0 then NaN else if 0 <? a then PosInf else NegInf
  else Fin (fdiv (inject_Z a) (inject_Z b)).

(** [x < c]: false on NaN. *)
Definition lt (x : number) (c : Q) : bool :=
  match x with
  | Fin q => match (q ?= c)%Q with Lt => true | _ => false end
  | NegInf => true
  | PosInf | NaN => false
  end.

End Num.

(** ** The data contract ([shared/schema.ts]) *)

Module Heading.
Record t := mk { level : Z; text : jsstring }.
End Heading.

Module Image.
Record t := mk { src : jsstring; alt : jsstring; hasAlt : bool }.
End Image.

Module Link.
Record t := mk { href : jsstring; text : jsstring; isInternal : bool }.
End Link.

Module WebsiteData.
Record t := mk {
  title : jsstring;
  metaDescription : jsstring;
  headings : list Heading.t;
  images : list Image.t;
  links : list Link.t;
  content : jsstring;
  hasSchema : bool;
  schemaTypes : list jsstring;
  loadTime : Z;
  wordCount : Z
}.
End WebsiteData.
Import WebsiteData.

Module Kind.
Inductive t := success | warning | error.
Definition eqb (a b : t) : bool :=
  match a, b with
  | success, success | warning, warning | error, error => true
  | _, _ => false
  end.
End Kind.

(** A value of a [metrics] record: [string | number]. *)
Inductive metric := MNum (n : Z) | MStr (s : jsstring).

(** [TraditionalSeoResult]; a [GeoResult] is the same without [metrics]. *)
Module Finding.
Record t := mk {
  type : Kind.t;
  title : jsstring;
  description : jsstring;
  details : option jsstring;
  metrics : option (list (jsstring * metric))
}.
End Finding.

Module ScoreResult.
Record t := mk { results : list Finding.t; score : Z }.
End ScoreResult.

(** [xs.push(x)] *)
Definition push {A : Type} (xs : list A) (x : A) : list A := xs ++ [x].

(** The double quote of a template literal. *)
Definition dquote : jsstring := [34%N].

(** The accumulators [results] and [score] of a rule-based scorer. *)
Definition acc : Type := list Finding.t * Z.

(** ** analyzeTraditionalSeo *)

Definition maxScore : Z := 100.

(** [data.headings.filter(h => h.level === 1).length] *)
Definition h1Count (data : WebsiteData.t) : Z :=
  Z.of_nat (List.length
    (filter (fun h => h.(Heading.level) =? 1) data.(headings))).

(** [data.images.filter(img => !img.hasAlt).length] *)
Definition imagesWithoutAlt (data : WebsiteData.t) : Z :=
  Z.of_nat (List.length
    (filter (fun img => negb img.(Image.hasAlt)) data.(images))).

(** Title tag analysis *)
Definition titleRule (data : WebsiteData.t) (a : acc) : acc :=
  let '(results, score) := a in
  if negb (truthy data.(title)) then
    (push results (Finding.mk Kind.error "Missing title tag"
       "The page is missing a title tag, which is crucial for SEO."
       None None), score)
  else if Js.length data.(title) <? 30 then
    (push results (Finding.mk Kind.warning "Title tag too short"
       "Title tag should be between 30-60 characters for optimal SEO."
       (Some (lit "Current: " ++ dquote ++ data.(title) ++ dquote))
       None), score + 10)
  else if 60 <? Js.length data.(title) then
    (push results (Finding.mk Kind.warning "Title tag too long"
       "Title tag may be truncated in search results."
       (Some (lit "Current length: " ++ toString (Js.length data.(title))
              ++ lit " characters"))
       None), score + 10)
  else
    (push results (Finding.mk Kind.success "Title tag length optimal"
       "Title tag length is within the recommended range."
       (Some (lit "Length: " ++ toString (Js.length data.(title))
              ++ lit " characters"))
       None), score + 20).

(** Meta description analysis *)
Definition metaDescriptionRule (data : WebsiteData.t) (a : acc) : acc :=
  let '(results, score) := a in
  if negb (truthy data.(metaDescription)) then
    (push results (Finding.mk Kind.error "Missing meta description"
       "Meta description is missing, which affects click-through rates."
       None None), score)
  else if Js.length data.(metaDescription) <? 120 then
    (push results (Finding.mk Kind.warning "Meta description too short"
       "Meta description should be 120-160 characters for best results."
       (Some (lit "Current length: "
              ++ toString (Js.length data.(metaDescription))
              ++ lit " characters"))
       None), score + 10)
  else if 160 <? Js.length data.(metaDescription) then
    (push results (Finding.mk Kind.warning "Meta description too long"
       "Meta description may be truncated in search results."
       (Some (lit "Current length: "
              ++ toString (Js.length data.(metaDescription))
              ++ lit " characters"))
       None), score + 10)
  else
    (push results (Finding.mk Kind.success "Meta description length optimal"
       "Meta description length is within the recommended range."
       (Some (lit "Length: " ++ toString (Js.length data.(metaDescription))
              ++ lit " characters"))
       None), score + 20).

(** Heading structure analysis *)
Definition headingRule (data : WebsiteData.t) (a : acc) : acc :=
  let '(results, score) := a in
  let h1Count := h1Count data in
  if h1Count =? 0 then
    (push results (Finding.mk Kind.error "Missing H1 tag"
       "Every page should have exactly one H1 tag." None None), score)
  else if 1 <? h1Count then
    (push results (Finding.mk Kind.warning "Multiple H1 tags found"
       "Use only one H1 per page and structure other headings hierarchically."
       None (Some [(lit "H1 tags", MNum h1Count)])), score + 10)
  else
    (push results (Finding.mk Kind.success "Proper H1 structure"
       "Page has exactly one H1 tag." None None), score + 15).

(** Image optimization analysis *)
Definition imageRule (data : WebsiteData.t) (a : acc) : acc :=
  let '(results, score) := a in
  let imagesWithoutAlt := imagesWithoutAlt data in
  let total := Z.of_nat (List.length data.(images)) in
  if 0 <? imagesWithoutAlt then
    (push results (Finding.mk Kind.error "Missing alt text on images"
       (toString imagesWithoutAlt ++ lit " images found without alt attributes, affecting accessibility and SEO.")
       None
       (Some [(lit "Total images", MNum total);
              (lit "Missing alt", MNum imagesWithoutAlt)])), score)
  else if 0 <? total then
    (push results (Finding.mk Kind.success "All images have alt text"
       "Great job! All images have descriptive alt attributes."
       None (Some [(lit "Total images", MNum total)])), score + 15)
  else (results, score).

(** Schema markup analysis *)
Definition schemaRule (data : WebsiteData.t) (a : acc) : acc :=
  let '(results, score) := a in
  if negb data.(hasSchema) then
    (push results (Finding.mk Kind.warning "No schema markup found"
       "Consider adding structured data to help search engines understand your content."
       None None), score)
  else
    (push results (Finding.mk Kind.success "Schema markup present"
       "Structured data found on the page."
       (Some (lit "Types: " ++ join data.(schemaTypes) ", ")) None),
     score + 15).

(** Page speed analysis (basic) *)
Definition loadTimeRule (data : WebsiteData.t) (a : acc) : acc :=
  let '(results, score) := a in
  let shown := MStr (toString data.(loadTime) ++ lit "ms") in
  if 3000 <? data.(loadTime) then
    (push results (Finding.mk Kind.warning "Slow page load time"
       "Page took longer than 3 seconds to load, which may affect user experience."
       None (Some [(lit "Load time", shown)])), score)
  else
    (push results (Finding.mk Kind.success "Good page load time"
       "Page loads within acceptable time limits."
       None (Some [(lit "Load time", shown)])), score + 15).

(** The body of [analyzeTraditionalSeo] up to its [return]: the findings
    and the raw sum. *)
Definition traditionalSeoRules (data : WebsiteData.t) : acc :=
  let a : acc := ([], 0) in
  let a := titleRule data a in
  let a := metaDescriptionRule data a in
  let a := headingRule data a in
  let a := imageRule data a in
  let a := schemaRule data a in
  loadTimeRule data a.

Definition analyzeTraditionalSeo (data : WebsiteData.t) : ScoreResult.t :=
  let '(results, score) := traditionalSeoRules data in
  ScoreResult.mk results (Z.min score maxScore).

(** ** analyzeGeo *)

Section Geo.
Context {cm : CaseMapping}.

(** [data.headings.some(h => h.level === 2)] *)
Definition hasH2Structure (data : WebsiteData.t) : bool :=
  existsb (fun h => h.(Heading.level) =? 2) data.(headings).

Definition hasTldr (data : WebsiteData.t) : bool :=
  includes (toLowerCase data.(content)) "tl;dr"
  || includes (toLowerCase data.(content)) "summary"
  || includes (toLowerCase data.(content)) "key takeaways".

Definition hasQAFormat (data : WebsiteData.t) : bool :=
  includes (toLowerCase data.(content)) "what is"
  || includes (toLowerCase data.(content)) "how to"
  || includes (toLowerCase data.(content)) "why"
  || existsb (fun h => includes (toLowerCase h.(Heading.text)) "?")
             data.(headings).

(** [/\b[A-Z][a-z]+ [A-Z][a-z]+\b/]: basic proper noun detection. *)
Definition properNoun : RegExp.re :=
  RegExp.cat
    [ RegExp.WordBoundary; RegExp.Unit isUpper; RegExp.AtLeast 1 isLower;
      RegExp.chr 32; RegExp.Unit isUpper; RegExp.AtLeast 1 isLower;
      RegExp.WordBoundary ].

Definition hasEntities (data : WebsiteData.t) : bool :=
  includes data.(content) "2024"
  || includes data.(content) "2023"
  || RegExp.test properNoun data.(content).

(** Content structure analysis *)
Definition geoStructureRule (data : WebsiteData.t) (a : acc) : acc :=
  let '(results, score) := a in
  if hasH2Structure data then
    (push results (Finding.mk Kind.success "Content structured with H2 headings"
       "Good use of heading structure that AI engines can easily parse and understand."
       None None), score + 20)
  else
    (push results (Finding.mk Kind.warning "Poor heading structure for AI"
       "Add H2 and H3 headings to improve AI readability and content parsing."
       None None), score).

(** TL;DR analysis *)
Definition geoTldrRule (data : WebsiteData.t) (a : acc) : acc :=
  let '(results, score) := a in
  if negb (hasTldr data) then
    (push results (Finding.mk Kind.error "No TL;DR summary found"
       "AI tools prefer concise summaries. Add a TL;DR section to improve AI-driven content discovery."
       None None), score)
  else
    (push results (Finding.mk Kind.success "Summary content present"
       "Content includes summary sections that AI tools can easily extract."
       None None), score + 25).

(** Question-answer format analysis *)
Definition geoQaRule (data : WebsiteData.t) (a : acc) : acc :=
  let '(results, score) := a in
  if negb (hasQAFormat data) then
    (push results (Finding.mk Kind.warning "Limited question-answer format"
       "Content doesn't directly answer user intent queries. Consider restructuring with Q&A sections."
       None None), score)
  else
    (push results (Finding.mk Kind.success "Question-answer format detected"
       "Content addresses user questions directly, improving AI platform visibility."
       None None), score + 20).

(** Schema markup for AI *)
Definition geoSchemaRule (data : WebsiteData.t) (a : acc) : acc :=
  let '(results, score) := a in
  if negb data.(hasSchema) then
    (push results (Finding.mk Kind.error "Missing schema markup"
       "No structured data found. Schema markup helps AI engines understand your content context."
       None None), score)
  else
    (push results (Finding.mk Kind.success "Schema markup enhances AI understanding"
       "Structured data helps AI platforms understand content relationships and context."
       None None), score + 20).

(** Entity and semantic clarity *)
Definition geoEntityRule (data : WebsiteData.t) (a : acc) : acc :=
  let '(results, score) := a in
  if hasEntities data then
    (push results (Finding.mk Kind.success "Good entity and semantic clarity"
       "Content includes specific entities, dates, and proper nouns that improve AI understanding."
       None None), score + 15)
  else
    (push results (Finding.mk Kind.warning "Moderate entity and semantic clarity"
       "Consider adding more specific dates, locations, and definitions to improve AI understanding."
       None None), score).

(** The body of [analyzeGeo] up to its [return]. *)
Definition geoRules (data : WebsiteData.t) : acc :=
  let a : acc := ([], 0) in
  let a := geoStructureRule data a in
  let a := geoTldrRule data a in
  let a := geoQaRule data a in
  let a := geoSchemaRule data a in
  geoEntityRule data a.

Definition analyzeGeo (data : WebsiteData.t) : ScoreResult.t :=
  let '(results, score) := geoRules data in
  ScoreResult.mk results (Z.min score maxScore).

End Geo.

(** ** generateContentSuggestions and generateAiImprovements *)

Module Impact.
Inductive t := high | medium | low.
End Impact.

Module Improvement.
Record t := mk {
  action : jsstring;
  description : jsstring;
  impact : Impact.t;
  priority : Z
}.
End Improvement.

Module BlogTitle.
Record t := mk { title : jsstring; target : jsstring }.
End BlogTitle.

Module Faq.
Record t := mk { question : jsstring; answer : jsstring }.
End Faq.

(** [{ chatgpt, perplexity, claude, bard }], each [low], [medium] or [high]. *)
Module PlatformVisibility.
Record t := mk {
  chatgpt : Impact.t;
  perplexity : Impact.t;
  claude : Impact.t;
  bard : Impact.t
}.
End PlatformVisibility.

Module ContentSuggestions.
Record t := mk {
  missingKeywords : list jsstring;
  blogTitles : list BlogTitle.t;
  contentStructure : list jsstring;
  faqs : list Faq.t;
  aiVisibility : PlatformVisibility.t;
  aiImprovements : list Improvement.t
}.
End ContentSuggestions.

(** [xs.slice(0, n)] *)
Definition slice0 {A : Type} (n : nat) (xs : list A) : list A := firstn n xs.

Definition tldrSection : Improvement.t :=
  Improvement.mk "Add TL;DR Summary Section"
    "AI tools ke liye page ke top par 2-3 lines ka summary add kariye jo main points cover kare"
    Impact.high 1.
Definition faqSchema : Improvement.t :=
  Improvement.mk "Create FAQ Schema Markup"
    "Common questions aur unke answers ko structured data format mein add kariye taaki AI easily samjh sake"
    Impact.high 2.
Definition clearHeadings : Improvement.t :=
  Improvement.mk "Improve Content Structure with Clear Headings"
    "H2/H3 headings use kariye jo direct questions answer karte hain (What is, How to, Why)"
    Impact.high 3.
Definition peopleAlsoAsk : Improvement.t :=
  Improvement.mk (lit "Add " ++ dquote ++ lit "People Also Ask" ++ dquote ++ lit " Section")
    "Related questions aur unke short answers add kariye jo users commonly puchte hain"
    Impact.medium 4.
Definition datesAndStatistics : Improvement.t :=
  Improvement.mk "Include Specific Dates and Statistics"
    "Current year, numbers, aur specific data points add kariye jo AI tools reference kar sakein"
    Impact.medium 5.
Definition voiceSearch : Improvement.t :=
  Improvement.mk "Optimize for Voice Search Queries"
    "Natural language phrases add kariye jo log voice assistants se puchte hain"
    Impact.medium 6.
Definition comparisonTables : Improvement.t :=
  Improvement.mk "Add Comparison Tables"
    "Options, features ya alternatives ko table format mein present kariye"
    Impact.medium 7.
Definition authoritativeSources : Improvement.t :=
  Improvement.mk "Link to Authoritative Sources"
    "Wikipedia, government sites, aur trusted sources ko reference kariye credibility ke liye"
    Impact.low 8.
Definition stepByStep : Improvement.t :=
  Improvement.mk "Add Step-by-Step Instructions"
    "Process-based content ko numbered lists mein convert kariye"
    Impact.low 9.
Definition articleSchema : Improvement.t :=
  Improvement.mk "Implement Article Schema"
    "Publisher, author, aur publication date ka structured data add kariye"
    Impact.low 10.

Definition generateAiImprovements (data : WebsiteData.t) (currentScore : Z)
  : list Improvement.t :=
  let improvements : list Improvement.t := [] in
  (* High priority improvements for scores below 50 *)
  let improvements :=
    if currentScore <? 50
    then push (push improvements tldrSection) faqSchema
    else improvements in
  (* Medium priority improvements for scores 50-75 *)
  let improvements :=
    if currentScore <? 75
    then push (push (push improvements clearHeadings) peopleAlsoAsk)
              datesAndStatistics
    else improvements in
  (* Fine-tuning improvements for scores 75-85 *)
  let improvements :=
    if currentScore <? 85
    then push (push improvements voiceSearch) comparisonTables
    else improvements in
  (* Advanced improvements for scores 85+ *)
  let improvements :=
    if 85 <=? currentScore
    then push (push (push improvements authoritativeSources) stepByStep)
              articleSchema
    else improvements in
  slice0 6 improvements.

Definition generateContentSuggestions (data : WebsiteData.t) (aiScore : Z)
  : ContentSuggestions.t :=
  let missingKeywords : list jsstring :=
    [ lit "SEO optimization"; lit "website performance";
      lit "search engine ranking"; lit "content marketing";
      lit "digital marketing" ] in
  let blogTitles :=
    [ BlogTitle.mk "How to Improve Your Page Speed for Better Rankings in 2024"
        "page speed optimization, Core Web Vitals";
      BlogTitle.mk "The Complete Guide to AI-Friendly Content Creation"
        "AI optimization, content structure";
      BlogTitle.mk "SEO vs GEO: What's the Difference and Why It Matters"
        "generative engine optimization, SEO comparison";
      BlogTitle.mk "Schema Markup: The Secret to Better AI Visibility"
        "structured data, schema implementation" ] in
  let contentStructure : list jsstring :=
    [ lit "## What is SEO Optimization?";
      lit "### Definition and Core Principles";
      lit "### Why SEO Matters in 2024";
      lit "## Traditional SEO vs. AI Optimization";
      lit "### Search Engine Optimization Basics";
      lit "### Generative Engine Optimization (GEO)";
      lit "## Step-by-Step Implementation Guide";
      lit "### Technical SEO Checklist";
      lit "### Content Optimization Strategies";
      lit "## Measuring Success";
      lit "### Key Performance Indicators";
      lit "### Tools and Analytics" ] in
  let faqs :=
    [ Faq.mk "What is a good page speed score?"
        "A good page speed score is above 90 for mobile and desktop. Core Web Vitals should meet Google's thresholds: LCP under 2.5s, FID under 100ms, and CLS under 0.1.";
      Faq.mk "How can I optimize images without losing quality?"
        "Use modern formats like WebP or AVIF, implement lazy loading, compress images to 80-85% quality, and serve responsive images using srcset attributes.";
      Faq.mk "What's the difference between SEO and GEO?"
        "SEO optimizes for search engines like Google, while GEO (Generative Engine Optimization) optimizes for AI platforms like ChatGPT and Perplexity that generate direct answers.";
      Faq.mk "How important is schema markup for AI visibility?"
        "Schema markup is crucial for AI platforms to understand your content context, entity relationships, and factual information, significantly improving visibility in AI-generated responses." ] in
  let aiVisibility :=
    PlatformVisibility.mk Impact.medium Impact.low Impact.medium Impact.low in
  let aiImprovements := generateAiImprovements data aiScore in
  ContentSuggestions.mk missingKeywords blogTitles contentStructure faqs
    aiVisibility aiImprovements.

(** ** analyzeAiPlatformVisibility: the twelve factors *)

Module Status.
Inductive t := pass | warning | fail.
Definition eqb (a b : t) : bool :=
  match a, b with
  | pass, pass | warning, warning | fail, fail => true
  | _, _ => false
  end.
End Status.

Module Factor.
Record t := mk {
  factor : jsstring;
  score : Z;
  description : jsstring;
  status : Status.t
}.
End Factor.

Module Priority.
Inductive t := high | medium.
End Priority.

Module Recommendation.
Record t := mk {
  priority : Priority.t;
  action : jsstring;
  description : jsstring;
  impact : jsstring
}.
End Recommendation.

Module AiVisibilityReport.
Record t := mk {
  overallScore : Z;
  summary : jsstring;
  factors : list Factor.t;
  recommendations : list Recommendation.t
}.
End AiVisibilityReport.

(** [score >= 80 ? 'pass' : score >= 50 ? 'warning' : 'fail'] *)
Definition statusOf (score : Z) : Status.t :=
  if 80 <=? score then Status.pass
  else if 50 <=? score then Status.warning
  else Status.fail.

(** [if (c) score += n] *)
Definition addIf (c : bool) (n : Z) (score : Z) : Z :=
  if c then score + n else score.

Section Assess.
Context {cm : CaseMapping}.

Definition assessCrawlability (data : WebsiteData.t) : Z :=
  let score := 80 in
  let score :=
    if includes (toLowerCase data.(content)) "login"
       || includes (toLowerCase data.(content)) "sign in"
    then score - 20 else score in
  Z.max 0 score.

Definition assessHtmlStructure (data : WebsiteData.t) : Z :=
  let score := 0 in
  let h1Count := h1Count data in
  let score :=
    if h1Count =? 1 then score + 25
    else if h1Count =? 0 then score + 0
    else score + 10 in
  let hasH2 := existsb (fun h => h.(Heading.level) =? 2) data.(headings) in
  let hasH3 := existsb (fun h => h.(Heading.level) =? 3) data.(headings) in
  let score := addIf hasH2 25 score in
  let score := addIf hasH3 15 score in
  let score :=
    addIf (truthy data.(title) && (10 <? Js.length data.(title))) 20 score in
  let score :=
    addIf (truthy data.(metaDescription)
           && (50 <? Js.length data.(metaDescription))) 15 score in
  Z.min 100 score.

Definition assessContentClarity (data : WebsiteData.t) : Z :=
  let score := 0 in
  let content := toLowerCase data.(content) in
  let score :=
    addIf (includes content "what is" || includes content "introduction"
           || includes content "overview") 25 score in
  let score :=
    addIf (includes content "how to" || includes content "why"
           || includes content "when") 25 score in
  let score :=
    addIf (includes content "definition" || includes content "means"
           || includes content "refers to") 20 score in
  let score :=
    if (300 <? data.(wordCount)) && (data.(wordCount) <? 3000) then score + 30
    else if 3000 <=? data.(wordCount) then score + 15
    else score in
  Z.min 100 score.

(** The line feed pair on which paragraphs are split. *)
Definition blankLine : jsstring := [10%N; 10%N].

Definition assessScanability (data : WebsiteData.t) : Z :=
  let score := 0 in
  let content := data.(content) in
  let paragraphs :=
    filter (fun p => 50 <? Js.length (trim p)) (split content blankLine) in
  let avgParagraphLength :=
    Num.div (fold_left (fun sum p => sum + Js.length p) paragraphs 0)
            (Z.of_nat (List.length paragraphs)) in
  let score :=
    if Num.lt avgParagraphLength 300 then score + 40
    else if Num.lt avgParagraphLength 500 then score + 25
    else score + 10 in
  let score :=
    addIf (includes content "•" || includes content "*"
           || includes content "1." || includes content "-") 30 score in
  let score := addIf (3 <? Z.of_nat (List.length data.(headings))) 30 score in
  Z.min 100 score.

Definition assessSummarySections (data : WebsiteData.t) : Z :=
  let content := toLowerCase data.(content) in
  let score := 0 in
  let score :=
    addIf (includes content "tl;dr" || includes content "tldr") 40 score in
  let score :=
    addIf (includes content "summary" || includes content "key points"
           || includes content "takeaways") 30 score in
  let score :=
    addIf (includes content "conclusion" || includes content "to summarize")
          30 score in
  Z.min 100 score.

Definition assessQaFormat (data : WebsiteData.t) : Z :=
  let content := toLowerCase data.(content) in
  let score := 0 in
  let score :=
    addIf (includes content "q:" || includes content "question:"
           || includes content "faq") 40 score in
  let score :=
    addIf (includes content "a:" || includes content "answer:") 30 score in
  let questionHeadings :=
    filter (fun h =>
              includes (toLowerCase h.(Heading.text)) "?"
              || startsWith (toLowerCase h.(Heading.text)) "how "
              || startsWith (toLowerCase h.(Heading.text)) "what "
              || startsWith (toLowerCase h.(Heading.text)) "why ")
           data.(headings) in
  let score :=
    addIf (0 <? Z.of_nat (List.length questionHeadings)) 30 score in
  Z.min 100 score.

Definition assessSchemaMarkup (data : WebsiteData.t) : Z :=
  let score := 0 in
  let score :=
    if data.(hasSchema) then
      let score := score + 50 in
      let score := addIf (arrayIncludes data.(schemaTypes) "FAQPage") 20 score in
      let score := addIf (arrayIncludes data.(schemaTypes) "Article") 15 score in
      addIf (arrayIncludes data.(schemaTypes) "HowTo") 15 score
    else score in
  Z.min 100 score.

Definition assessTrustedEntities (data : WebsiteData.t) : Z :=
  let score := 0 in
  let content := toLowerCase data.(content) in
  let score :=
    addIf (includes content "wikipedia" || includes content ".gov"
           || includes content ".edu") 30 score in
  let score :=
    addIf (includes content "research" || includes content "study"
           || includes content "university") 25 score in
  let externalLinks :=
    filter (fun link => negb link.(Link.isInternal)) data.(links) in
  let score := addIf (2 <? Z.of_nat (List.length externalLinks)) 25 score in
  let score := addIf (5 <? Z.of_nat (List.length externalLinks)) 20 score in
  Z.min 100 score.

(** [/^\s*[-\*\+]/m] *)
Definition bulletLine : RegExp.re :=
  RegExp.cat
    [ RegExp.LineStart; RegExp.AtLeast 0 isSpace;
      RegExp.Unit (fun c => (c =? 45) || (c =? 42) || (c =? 43))%N ].

(** [/^\s*\d+\./m] *)
Definition numberedLine : RegExp.re :=
  RegExp.cat
    [ RegExp.LineStart; RegExp.AtLeast 0 isSpace; RegExp.AtLeast 1 isDigit;
      RegExp.chr 46 ].

(** [/\d+%/], [/\$\d+/] and [/\d+,\d+/] *)
Definition percentage : RegExp.re :=
  RegExp.cat [ RegExp.AtLeast 1 isDigit; RegExp.chr 37 ].
Definition dollars : RegExp.re :=
  RegExp.cat [ RegExp.chr 36; RegExp.AtLeast 1 isDigit ].
Definition grouped : RegExp.re :=
  RegExp.cat [ RegExp.AtLeast 1 isDigit; RegExp.chr 44; RegExp.AtLeast 1 isDigit ].

Definition assessDataFormats (data : WebsiteData.t) : Z :=
  let score := 0 in
  let content := data.(content) in
  let score :=
    addIf (includes content "•" || includes content "*"
           || RegExp.test bulletLine content) 30 score in
  let score := addIf (RegExp.test numberedLine content) 25 score in
  let score :=
    addIf (RegExp.test percentage content || RegExp.test dollars content
           || RegExp.test grouped content) 25 score in
  let score := score + 20 in
  Z.min 100 score.

(** [/\w{10,}/g] *)
Definition longWord : RegExp.re := RegExp.AtLeast 10 isWord.

Definition assessReadability (data : WebsiteData.t) : Z :=
  let score := 60 in
  let sentences := Z.of_nat (List.length (split data.(content) ".")) in
  let avgWordsPerSentence :=
    Num.div data.(wordCount) (if sentences =? 0 then 1 else sentences) in
  let score :=
    if Num.lt avgWordsPerSentence 15 then score + 25
    else if Num.lt avgWordsPerSentence 20 then score + 15
    else score + 5 in
  let complexWords := RegExp.matchCount longWord data.(content) in
  let complexWordRatio := Num.div (Z.of_nat complexWords) data.(wordCount) in
  let score :=
    if Num.lt complexWordRatio (Num.round (5 # 100)) then score + 15
    else if Num.lt complexWordRatio (Num.round (1 # 10)) then score + 10
    else score in
  Z.min 100 score.

(** [currentYear] is [new Date().getFullYear()]. *)
Definition assessFreshness (currentYear : Z) (data : WebsiteData.t) : Z :=
  let score := 0 in
  let content := toLowerCase data.(content) in
  let score := addIf (includes content (toString currentYear)) 40 score in
  let score := addIf (includes content (toString (currentYear - 1))) 20 score in
  let score :=
    addIf (includes content "updated" || includes content "revised"
           || includes content "latest") 30 score in
  let score :=
    addIf (includes content "2024" || includes content "2025") 30 score in
  Z.min 100 score.

Definition assessCredibility (data : WebsiteData.t) : Z :=
  let score := 40 in
  let content := toLowerCase data.(content) in
  let score :=
    addIf (includes content "author" || includes content "written by"
           || includes content "by:") 25 score in
  let score :=
    addIf (includes content "contact" || includes content "about us"
           || includes content "team") 20 score in
  let score :=
    addIf (includes content "expert" || includes content "certified"
           || includes content "professional") 15 score in
  Z.min 100 score.

End Assess.

(** ** The report and its recommendations *)

Definition tldrRemedy : Recommendation.t :=
  Recommendation.mk Priority.high "Add TL;DR Summary Section"
    "Page ke top या bottom में 2-3 sentences का clear summary add करें जो main points cover करे"
    "AI tools आपका content easily समझ और summarize कर पाएंगे".
Definition faqRemedy : Recommendation.t :=
  Recommendation.mk Priority.high "Create FAQ Section"
    "Common questions और उनके direct answers add करें structured format में"
    "ChatGPT और Perplexity में better visibility मिलेगी".
Definition structuredDataRemedy : Recommendation.t :=
  Recommendation.mk Priority.high "Implement Structured Data"
    "FAQPage, Article, या HowTo schema markup add करें"
    "AI platforms को content का context better समझ आएगा".
Definition headingRemedy : Recommendation.t :=
  Recommendation.mk Priority.medium "Improve Heading Structure"
    "Single H1 use करें और proper H2/H3 hierarchy बनाएं"
    "Content का logical flow AI को better समझ आएगा".
Definition paragraphRemedy : Recommendation.t :=
  Recommendation.mk Priority.medium "Break Content into Short Paragraphs"
    "Long paragraphs को छोटे में divide करें और bullet points use करें"
    "AI tools content को easily scan और extract कर पाएंगे".
Definition currentYearRemedy : Recommendation.t :=
  Recommendation.mk Priority.medium "Add Current Year References"
    "2025 और recent data points include करें content freshness के लिए"
    "AI platforms fresh और relevant content को prefer करते हैं".

(** The body of the first [forEach]: high priority recommendations for
    critical failures. *)
Definition onFail (recommendations : list Recommendation.t) (f : Factor.t)
  : list Recommendation.t :=
  if Status.eqb f.(Factor.status) Status.fail then
    if Js.eqb f.(Factor.factor) "TL;DR & Summary"
    then push recommendations tldrRemedy
    else if Js.eqb f.(Factor.factor) "Q&A Format"
    then push recommendations faqRemedy
    else if Js.eqb f.(Factor.factor) "Schema Markup"
    then push recommendations structuredDataRemedy
    else recommendations
  else recommendations.

(** The body of the second [forEach]: medium priority for warnings. *)
Definition onWarning (recommendations : list Recommendation.t) (f : Factor.t)
  : list Recommendation.t :=
  if Status.eqb f.(Factor.status) Status.warning then
    if Js.eqb f.(Factor.factor) "HTML Structure"
    then push recommendations headingRemedy
    else if Js.eqb f.(Factor.factor) "Content Scannability"
    then push recommendations paragraphRemedy
    else recommendations
  else recommendations.

Definition generateAiVisibilityRecommendations (factors : list Factor.t)
           (overallScore : Z) : list Recommendation.t :=
  let recommendations : list Recommendation.t := [] in
  let recommendations := fold_left onFail factors recommendations in
  let recommendations := fold_left onWarning factors recommendations in
  let recommendations :=
    if overallScore <? 70 then push recommendations currentYearRemedy
    else recommendations in
  slice0 8 recommendations.

(** One block of [analyzeAiPlatformVisibility]: [factors.push({...})]
    followed by [totalScore += score]. *)
Definition addFactor (st : list Factor.t * Z) (factor : jsstring) (score : Z)
           (description : jsstring) : list Factor.t * Z :=
  let '(factors, totalScore) := st in
  (push factors (Factor.mk factor score description (statusOf score)),
   totalScore + score).

(** [factors.filter(f => f.status === st).length] *)
Definition countStatus (st : Status.t) (factors : list Factor.t) : Z :=
  Z.of_nat (List.length
    (filter (fun f => Status.eqb f.(Factor.status) st) factors)).

Section Visibility.
Context {cm : CaseMapping}.

(** The twelve blocks: the factor list and [totalScore]. *)
Definition visibilityFactors (currentYear : Z) (data : WebsiteData.t)
  : list Factor.t * Z :=
  let st : list Factor.t * Z := ([], 0) in
  let st := addFactor st "Public Crawlability" (assessCrawlability data)
    "Page accessibility for AI crawlers without login walls or blocking" in
  let st := addFactor st "HTML Structure" (assessHtmlStructure data)
    "Clean semantic HTML with proper heading hierarchy" in
  let st := addFactor st "Content Clarity" (assessContentClarity data)
    "Clear introduction, topic definition, and direct question answers" in
  let st := addFactor st "Content Scannability" (assessScanability data)
    "Short paragraphs and easy-to-summarize content structure" in
  let st := addFactor st "TL;DR & Summary" (assessSummarySections data)
    "Quick summary sections at top or bottom of content" in
  let st := addFactor st "Q&A Format" (assessQaFormat data)
    "Structured question-answer blocks that AI can easily extract" in
  let st := addFactor st "Schema Markup" (assessSchemaMarkup data)
    "FAQPage, HowTo, Article, and other relevant structured data" in
  let st := addFactor st "Trusted Entities" (assessTrustedEntities data)
    "References to organizations, authority sources, and credible links" in
  let st := addFactor st "Data Extraction" (assessDataFormats data)
    "Bullet lists, tables, statistics, and structured information" in
  let st := addFactor st "Readability Level" (assessReadability data)
    "8th-grade reading level, minimal jargon and marketing fluff" in
  let st := addFactor st "Content Freshness" (assessFreshness currentYear data)
    "Updated dates, current year references, and freshness indicators" in
  addFactor st "Credibility Markers" (assessCredibility data)
    "Author information, contact details, and about us content".

(** 12 factors x 100 points each *)
Definition maxTotal : Z := 1200.

Definition overallOf (totalScore : Z) : Z :=
  Num.Math_round
    (Num.fmul (Num.fdiv (inject_Z totalScore) (inject_Z maxTotal)) 100).

Definition summaryOf (overallScore : Z) (factors : list Factor.t) : jsstring :=
  let failingFactors := countStatus Status.fail factors in
  let warningFactors := countStatus Status.warning factors in
  if 80 <=? overallScore then
    lit "Excellent AI platform visibility with strong optimization across most factors"
  else if 60 <=? overallScore then
    lit "Good AI visibility with " ++ toString (failingFactors + warningFactors)
    ++ lit " areas needing improvement"
  else if 40 <=? overallScore then
    lit "Moderate AI visibility. " ++ toString failingFactors
    ++ lit " critical issues and " ++ toString warningFactors
    ++ lit " warnings to address"
  else
    lit "Poor AI platform visibility. Significant optimization needed across "
    ++ toString failingFactors ++ lit " critical areas".

Definition analyzeAiPlatformVisibility (currentYear : Z)
           (data : WebsiteData.t) : AiVisibilityReport.t :=
  let '(factors, totalScore) := visibilityFactors currentYear data in
  let overallScore := overallOf totalScore in
  let summary := summaryOf overallScore factors in
  let recommendations :=
    generateAiVisibilityRecommendations factors overallScore in
  AiVisibilityReport.mk overallScore summary factors recommendations.

End Visibility.

(** ** compareWebsites *)

(** The fields of a stored report that the comparison reads. *)
Module AuditReport.
Record t := mk { seoScore : Z; aiScore : Z }.
End AuditReport.

Module Category.
Inductive t := seo | ai | visibility.
Definition eqb (a b : t) : bool :=
  match a, b with
  | seo, seo | ai, ai | visibility, visibility => true
  | _, _ => false
  end.
End Category.

Module Performer.
Inductive t := url1 | url2.
End Performer.

Module KeyDifference.
Record t := mk {
  category : Category.t;
  aspect : jsstring;
  url1Value : jsstring;
  url2Value : jsstring;
  recommendation : jsstring
}.
End KeyDifference.

(** The returned object; [aiVisibilityDiff] is a field of the six-argument
    version only. *)
Module Differences.
Record t := mk {
  seoScoreDiff : Z;
  aiScoreDiff : Z;
  aiVisibilityDiff : option Z;
  betterPerformer : Performer.t;
  keyDifferences : list KeyDifference.t
}.
End Differences.

(** [f ? `${f.score}/100` : 'Not assessed'] for
    [f = factors.find(f => f.factor === name)]. *)
Definition factorValue (name : jsstring) (factors : list Factor.t) : jsstring :=
  match find (fun f => Js.eqb f.(Factor.factor) name) factors with
  | Some f => toString f.(Factor.score) ++ lit "/100"
  | None => lit "Not assessed"
  end.

Definition metaValue (data : WebsiteData.t) : jsstring :=
  if truthy data.(metaDescription)
  then toString (Js.length data.(metaDescription)) ++ lit " chars"
  else lit "Missing".

Definition h2Value (data : WebsiteData.t) : jsstring :=
  if existsb (fun h => h.(Heading.level) =? 2) data.(headings)
  then lit "Has H2 structure" else lit "Poor heading structure".

Definition schemaValue (data : WebsiteData.t) : jsstring :=
  if data.(hasSchema)
  then toString (Z.of_nat (List.length data.(schemaTypes))) ++ lit " types"
  else lit "None".

(** SEO Differences, the same in both versions. *)
Definition seoDifferences (data1 data2 : WebsiteData.t) (seoScoreDiff : Z)
           (keyDifferences : list KeyDifference.t) : list KeyDifference.t :=
  if 10 <? Z.abs seoScoreDiff then
    let keyDifferences :=
      push keyDifferences
        (KeyDifference.mk Category.seo "Title Tag Optimization"
           (toString (Js.length data1.(title)) ++ lit " characters")
           (toString (Js.length data2.(title)) ++ lit " characters")
           (if 0 <? seoScoreDiff
            then lit "URL2 has better title length (50-60 chars ideal)"
            else lit "URL1 has better title length optimization")) in
    push keyDifferences
      (KeyDifference.mk Category.seo "Meta Description"
         (metaValue data1) (metaValue data2)
         "Meta description should be 150-160 characters for best results")
  else keyDifferences.

(** The version with the AI-visibility reports
    ([compareWebsites(data1, report1, data2, report2, aiVisibility1,
    aiVisibility2)]). *)
Definition compareWebsites (data1 : WebsiteData.t) (report1 : AuditReport.t)
           (data2 : WebsiteData.t) (report2 : AuditReport.t)
           (aiVisibility1 aiVisibility2 : AiVisibilityReport.t)
  : Differences.t :=
  let seoScoreDiff := report2.(AuditReport.seoScore) - report1.(AuditReport.seoScore) in
  let aiScoreDiff := report2.(AuditReport.aiScore) - report1.(AuditReport.aiScore) in
  let aiVisibilityDiff :=
    aiVisibility2.(AiVisibilityReport.overallScore)
    - aiVisibility1.(AiVisibilityReport.overallScore) in
  let betterPerformer :=
    if 0 <? seoScoreDiff + aiScoreDiff + aiVisibilityDiff
    then Performer.url2 else Performer.url1 in
  let keyDifferences : list KeyDifference.t := [] in
  let keyDifferences := seoDifferences data1 data2 seoScoreDiff keyDifferences in
  (* AI Platform Visibility Differences *)
  let keyDifferences :=
    if 15 <? Z.abs aiVisibilityDiff then
      let keyDifferences :=
        push keyDifferences
          (KeyDifference.mk Category.visibility "AI Platform Summary"
             (factorValue "TL;DR & Summary" aiVisibility1.(AiVisibilityReport.factors))
             (factorValue "TL;DR & Summary" aiVisibility2.(AiVisibilityReport.factors))
             "Add TL;DR sections और clear summaries for better AI visibility") in
      push keyDifferences
        (KeyDifference.mk Category.visibility "Structured Data Implementation"
           (factorValue "Schema Markup" aiVisibility1.(AiVisibilityReport.factors))
           (factorValue "Schema Markup" aiVisibility2.(AiVisibilityReport.factors))
           "Implement FAQPage और Article schema markup for AI platforms")
    else keyDifferences in
  (* AI Optimization Differences *)
  let keyDifferences :=
    if 10 <? Z.abs aiScoreDiff then
      let keyDifferences :=
        push keyDifferences
          (KeyDifference.mk Category.ai "Content Structure"
             (h2Value data1) (h2Value data2)
             "Use H2/H3 headings for better AI content parsing") in
      push keyDifferences
        (KeyDifference.mk Category.ai "Schema Markup"
           (schemaValue data1) (schemaValue data2)
           "Implement FAQ and Article schema for AI platforms")
    else keyDifferences in
  Differences.mk seoScoreDiff aiScoreDiff (Some aiVisibilityDiff)
    betterPerformer keyDifferences.

(** The version of the class without AI-visibility reports
    ([compareWebsites(data1, report1, data2, report2)]). *)
Module Earlier.
Section Earlier.
Context {cm : CaseMapping}.

Definition tldrValue (data : WebsiteData.t) : jsstring :=
  if includes (toLowerCase data.(content)) "tl;dr"
  then lit "Present" else lit "Missing".

Definition compareWebsites (data1 : WebsiteData.t) (report1 : AuditReport.t)
           (data2 : WebsiteData.t) (report2 : AuditReport.t)
  : Differences.t :=
  let seoScoreDiff := report2.(AuditReport.seoScore) - report1.(AuditReport.seoScore) in
  let aiScoreDiff := report2.(AuditReport.aiScore) - report1.(AuditReport.aiScore) in
  let betterPerformer :=
    if 0 <? seoScoreDiff + aiScoreDiff
    then Performer.url2 else Performer.url1 in
  let keyDifferences : list KeyDifference.t := [] in
  let keyDifferences := seoDifferences data1 data2 seoScoreDiff keyDifferences in
  (* AI Optimization Differences *)
  let keyDifferences :=
    if 10 <? Z.abs aiScoreDiff then
      let keyDifferences :=
        push keyDifferences
          (KeyDifference.mk Category.ai "Content Structure"
             (h2Value data1) (h2Value data2)
             "Use H2/H3 headings for better AI content parsing") in
      let keyDifferences :=
        push keyDifferences
          (KeyDifference.mk Category.ai "TL;DR Summary"
             (tldrValue data1) (tldrValue data2)
             "Add TL;DR section for better AI tool visibility") in
      push keyDifferences
        (KeyDifference.mk Category.ai "Schema Markup"
           (schemaValue data1) (schemaValue data2)
           "Implement FAQ and Article schema for AI platforms")
    else keyDifferences in
  Differences.mk seoScoreDiff aiScoreDiff None betterPerformer keyDifferences.

End Earlier.
End Earlier.

(** ** The report schema and MemStorage ([shared/schema.ts],
    [server/storage.ts])

    The methods of [MemStorage] are [async]; they are modelled by the value
    their promise resolves to, and by the store they leave. *)

(** The first version of the class: [generateContentSuggestions(data)],
    whose result is the [ContentSuggestions] of the schema. *)
Module Earliest.

Module ContentSuggestions.
Record t := mk {
  missingKeywords : list jsstring;
  blogTitles : list BlogTitle.t;
  contentStructure : list jsstring;
  faqs : list Faq.t;
  aiVisibility : PlatformVisibility.t
}.
End ContentSuggestions.

Definition generateContentSuggestions (data : WebsiteData.t)
  : ContentSuggestions.t :=
  let missingKeywords : list jsstring :=
    [ lit "SEO optimization"; lit "website performance";
      lit "search engine ranking"; lit "content marketing";
      lit "digital marketing" ] in
  let blogTitles :=
    [ BlogTitle.mk "How to Improve Your Page Speed for Better Rankings in 2024"
        "page speed optimization, Core Web Vitals";
      BlogTitle.mk "The Complete Guide to AI-Friendly Content Creation"
        "AI optimization, content structure";
      BlogTitle.mk "SEO vs GEO: What's the Difference and Why It Matters"
        "generative engine optimization, SEO comparison";
      BlogTitle.mk "Schema Markup: The Secret to Better AI Visibility"
        "structured data, schema implementation" ] in
  let contentStructure : list jsstring :=
    [ lit "## What is SEO Optimization?";
      lit "### Definition and Core Principles";
      lit "### Why SEO Matters in 2024";
      lit "## Traditional SEO vs. AI Optimization";
      lit "### Search Engine Optimization Basics";
      lit "### Generative Engine Optimization (GEO)";
      lit "## Step-by-Step Implementation Guide";
      lit "### Technical SEO Checklist";
      lit "### Content Optimization Strategies";
      lit "## Measuring Success";
      lit "### Key Performance Indicators";
      lit "### Tools and Analytics" ] in
  let faqs :=
    [ Faq.mk "What is a good page speed score?"
        "A good page speed score is above 90 for mobile and desktop. Core Web Vitals should meet Google's thresholds: LCP under 2.5s, FID under 100ms, and CLS under 0.1.";
      Faq.mk "How can I optimize images without losing quality?"
        "Use modern formats like WebP or AVIF, implement lazy loading, compress images to 80-85% quality, and serve responsive images using srcset attributes.";
      Faq.mk "What's the difference between SEO and GEO?"
        "SEO optimizes for search engines like Google, while GEO (Generative Engine Optimization) optimizes for AI platforms like ChatGPT and Perplexity that generate direct answers.";
      Faq.mk "How important is schema markup for AI visibility?"
        "Schema markup is crucial for AI platforms to understand your content context, entity relationships, and factual information, significantly improving visibility in AI-generated responses." ] in
  let aiVisibility :=
    PlatformVisibility.mk Impact.medium Impact.low Impact.medium Impact.low in
  ContentSuggestions.mk missingKeywords blogTitles contentStructure faqs
    aiVisibility.

End Earliest.

(** [InsertAuditReport]: a report without [id] and [createdAt]. *)
Module InsertAuditReport.
Record t := mk {
  url : jsstring;
  seoScore : Z;
  aiScore : Z;
  traditionalSeoResults : list Finding.t;
  geoResults : list Finding.t;
  contentSuggestions : Earliest.ContentSuggestions.t
}.
End InsertAuditReport.

(** The stored [AuditReport], [{ ...insertReport, id, createdAt }]:
    [createdAt] is the time value of [new Date()]. *)
Module StoredReport.
Record t := mk {
  fields : InsertAuditReport.t;
  id : Z;
  createdAt : Z
}.
Definition url (r : t) : jsstring := r.(fields).(InsertAuditReport.url).
End StoredReport.

(** A [Map] with number keys: its entries in insertion order. *)
Module JsMap.
Section JsMap.
Context {V : Type}.

Definition t := list (Z * V).

(** [m.set(k, v)]: the value of an existing key is replaced where it
    stands, a new key is added at the end. *)
Fixpoint set (k : Z) (v : V) (m : t) : t :=
  match m with
  | [] => [(k, v)]
  | (k', v') :: m' =>
    if k' =? k then (k, v) :: m' else (k', v') :: set k v m'
  end.

(** [m.get(k)], [None] for [undefined]. *)
Fixpoint get (k : Z) (m : t) : option V :=
  match m with
  | [] => None
  | (k', v') :: m' => if k' =? k then Some v' else get k m'
  end.

(** [Array.from(m.values())] *)
Definition values (m : t) : list V := map snd m.

End JsMap.
Arguments t : clear implicits.
End JsMap.

Module MemStorage.

Record t := mk {
  reports : JsMap.t StoredReport.t;
  currentId : Z
}.

(** [new MemStorage()] *)
Definition new : t := mk [] 1.

(** [createAuditReport(insertReport)] at the time [now]: the new store and
    the report returned. *)
Definition createAuditReport (st : t) (insertReport : InsertAuditReport.t)
           (now : Z) : t * StoredReport.t :=
  let id := st.(currentId) in
  let currentId := st.(currentId) + 1 in
  let report := StoredReport.mk insertReport id now in
  (mk (JsMap.set id report st.(reports)) currentId, report).

(** [getAuditReport(id)] *)
Definition getAuditReport (st : t) (id : Z) : option StoredReport.t :=
  JsMap.get id st.(reports).

(** [getAuditReportsByUrl(url)] *)
Definition getAuditReportsByUrl (st : t) (url : jsstring)
  : list StoredReport.t :=
  filter (fun report => Js.eqb (StoredReport.url report) url)
         (JsMap.values st.(reports)).

(** [getAllAuditReports()] *)
Definition getAllAuditReports (st : t) : list StoredReport.t :=
  JsMap.values st.(reports).

End MemStorage.

(** ** The analyze route ([POST /api/analyze])

    The handler from the scraped [websiteData] to the stored report it
    answers with: the request flags choose between each analysis and its
    empty default. *)

Definition analyzeRoute (storage : MemStorage.t) (now : Z)
           (url : jsstring)
           (includeTraditionalSeo includeGeo includeContentSuggestions : bool)
           {cm : CaseMapping} (websiteData : WebsiteData.t)
  : MemStorage.t * StoredReport.t :=
  let traditionalSeoAnalysis :=
    if includeTraditionalSeo
    then analyzeTraditionalSeo websiteData
    else ScoreResult.mk [] 0 in
  let geoAnalysis :=
    if includeGeo
    then analyzeGeo websiteData
    else ScoreResult.mk [] 0 in
  let contentSuggestions :=
    if includeContentSuggestions
    then Earliest.generateContentSuggestions websiteData
    else Earliest.ContentSuggestions.mk [] [] [] []
           (PlatformVisibility.mk Impact.low Impact.low Impact.low
                                  Impact.low) in
  MemStorage.createAuditReport storage
    (InsertAuditReport.mk url
       traditionalSeoAnalysis.(ScoreResult.score)
       geoAnalysis.(ScoreResult.score)
       traditionalSeoAnalysis.(ScoreResult.results)
       geoAnalysis.(ScoreResult.results)
       contentSuggestions)
    now.

(** * Vocabulary of the properties *)

(** ** The environment of an invocation *)

(** What an invocation can see besides its arguments: the calendar year of
    the clock, [new Date().getFullYear()]. *)
Record Env := { fullYear : Z }.

(** The public scoring methods of [SeoAnalyzer]. *)
Inductive Scorer :=
| TraditionalSeo
| Geo
| AiPlatformVisibility
| ContentSuggestions.

Inductive Output :=
| OutScore (r : ScoreResult.t)
| OutReport (r : AiVisibilityReport.t)
| OutSuggestions (c : ContentSuggestions.t).

(** An invocation of a scorer in an environment. *)
Definition invoke {cm : CaseMapping} (env : Env) (s : Scorer)
           (data : WebsiteData.t) (aiScore : Z) : Output :=
  match s with
  | TraditionalSeo => OutScore (analyzeTraditionalSeo data)
  | Geo => OutScore (analyzeGeo data)
  | AiPlatformVisibility =>
    OutReport (analyzeAiPlatformVisibility env.(fullYear) data)
  | ContentSuggestions => OutSuggestions (generateContentSuggestions data aiScore)
  end.

(** The freshness score and the overall score of a report. *)
Definition freshnessOf (o : Output) : list Z :=
  match o with
  | OutReport r =>
    map Factor.score (firstn 1 (skipn 10 r.(AiVisibilityReport.factors)))
    ++ [r.(AiVisibilityReport.overallScore)]
  | _ => []
  end.

(** ** Findings *)

Definition kinds (fs : list Finding.t) : list Kind.t := map Finding.type fs.
Definition titles (fs : list Finding.t) : list jsstring := map Finding.title fs.

(** What a rule adds does not depend on the accumulators it finds. *)
Definition framed (rule : acc -> acc) : Prop :=
  forall rs sc,
    rule (rs, sc) = (rs ++ fst (rule ([], 0)), sc + snd (rule ([], 0))).

(** The classification of a length against an inclusive range, as the
    rules are worded. *)
Definition inRange (lo hi n : Z) : bool := (lo <=? n) && (n <=? hi).

(** The kinds of the first two findings, and the score. *)
Definition headKinds (data : WebsiteData.t) : list Kind.t * Z :=
  (firstn 2 (kinds (analyzeTraditionalSeo data).(ScoreResult.results)),
   (analyzeTraditionalSeo data).(ScoreResult.score)).

(** A finding of kind error or warning. *)
Definition isProblem (f : Finding.t) : bool :=
  negb (Kind.eqb f.(Finding.type) Kind.success).

(** The number of findings of kind [k] titled [t]. *)
Definition countFinding (k : Kind.t) (t : jsstring) (fs : list Finding.t)
  : nat :=
  List.length
    (filter (fun f => Kind.eqb f.(Finding.type) k && Js.eqb f.(Finding.title) t)
            fs).

(** Score 0 and three findings of kind error or warning, among them the
    three errors and the load time warning. *)
Definition threeProblemFindings (r : ScoreResult.t) : Prop :=
  r.(ScoreResult.score) = 0
  /\ List.length (filter isProblem r.(ScoreResult.results)) = 3%nat
  /\ countFinding Kind.error "Missing title tag" r.(ScoreResult.results) = 1%nat
  /\ countFinding Kind.error "Missing meta description" r.(ScoreResult.results)
     = 1%nat
  /\ countFinding Kind.error "Missing H1 tag" r.(ScoreResult.results) = 1%nat
  /\ countFinding Kind.warning "Slow page load time" r.(ScoreResult.results)
     = 1%nat.

(** ** Factors, recommendations and differences *)

(** The sum of the scores of a factor list. *)
Definition sumScores (fs : list Factor.t) : Z :=
  fold_right (fun f total => f.(Factor.score) + total) 0 fs.

(** [x] if [b] holds, nothing otherwise. *)
Definition when {A : Type} (b : bool) (x : A) : list A :=
  if b then [x] else [].

(** The status a score gets is fail, respectively warning. *)
Definition isFail (score : Z) : bool := Status.eqb (statusOf score) Status.fail.
Definition isWarning (score : Z) : bool :=
  Status.eqb (statusOf score) Status.warning.

(** Every failing factor, and then every warning factor, has a remediation
    of its own in the list, before the generic one and the cap of eight. *)
Definition eachFactorRemedied (r : AiVisibilityReport.t) : Prop :=
  exists high medium : Factor.t -> Recommendation.t,
    r.(AiVisibilityReport.recommendations)
    = slice0 8
        (map high
             (filter (fun f => Status.eqb f.(Factor.status) Status.fail)
                     r.(AiVisibilityReport.factors))
         ++ map medium
                (filter (fun f => Status.eqb f.(Factor.status) Status.warning)
                        r.(AiVisibilityReport.factors))
         ++ when (r.(AiVisibilityReport.overallScore) <? 70) currentYearRemedy).

(** [keyDifferences] has an entry of category [c]. *)
Definition hasCategory (c : Category.t) (ks : list KeyDifference.t) : bool :=
  existsb (fun k => Category.eqb k.(KeyDifference.category) c) ks.

(** ** Scores *)

(** A score between 0 and 100 that is a multiple of 5. *)
Definition isScore (s : Z) : Prop := 0 <= s <= 100 /\ s mod 5 = 0.

(** The percentage of a total in exact arithmetic, rounded to the nearest
    integer with ties upwards: [round(total / 1200 * 100)] as it reads on
    paper. *)
Definition exactPercent (total : Z) : Z :=
  Num.Math_round (inject_Z total / inject_Z 1200 * 100).

(** A check of every total from 0 to [n - 1]. *)
Definition allTotals (n : nat) (p : Z -> bool) : bool :=
  forallb (fun k => p (Z.of_nat k)) (seq 0 n).

(** The sum of the eleven factors that do not read the clock. *)
Definition timelessTotal {cm : CaseMapping} (d : WebsiteData.t) : Z :=
  assessCrawlability d + assessHtmlStructure d + assessContentClarity d
  + assessScanability d + assessSummarySections d + assessQaFormat d
  + assessSchemaMarkup d + assessTrustedEntities d + assessDataFormats d
  + assessReadability d + assessCredibility d.

(** ** Stores *)

(** The store after a sequence of creations, each with its time. *)
Definition createAll (inputs : list (InsertAuditReport.t * Z))
           (st : MemStorage.t) : MemStorage.t :=
  fold_left (fun st i => fst (MemStorage.createAuditReport st (fst i) (snd i)))
            inputs st.

(** What was created, in the order of creation. *)
Definition created (st : MemStorage.t) : list (InsertAuditReport.t * Z) :=
  map (fun r => (r.(StoredReport.fields), r.(StoredReport.createdAt)))
      (MemStorage.getAllAuditReports st).

(** The ids [1], ..., [n]. *)
Definition idsTo (n : nat) : list Z := map Z.of_nat (seq 1 n).

(** The priorities of a list of improvements. *)
Definition priorities (xs : list Improvement.t) : list Z :=
  map Improvement.priority xs.

(** The categories of a list of key differences. *)
Definition categories (ks : list KeyDifference.t) : list Category.t :=
  map KeyDifference.category ks.

(** The other site is the better performer. *)
Definition otherPerformer (p : Performer.t) : Performer.t :=
  match p with
  | Performer.url1 => Performer.url2
  | Performer.url2 => Performer.url1
  end.

(** ** Sample pages *)

(** A page with nothing on it that took five seconds to load. *)
Definition emptyPage : WebsiteData.t :=
  WebsiteData.mk "" "" [] [] [] "" false [] 5000 0.

(** [data] with another title, with another meta description. *)
Definition withTitle (data : WebsiteData.t) (t : jsstring) : WebsiteData.t :=
  WebsiteData.mk t data.(metaDescription) data.(headings) data.(images)
    data.(links) data.(content) data.(hasSchema) data.(schemaTypes)
    data.(loadTime) data.(wordCount).

Definition withMetaDescription (data : WebsiteData.t) (m : jsstring)
  : WebsiteData.t :=
  WebsiteData.mk data.(title) m data.(headings) data.(images)
    data.(links) data.(content) data.(hasSchema) data.(schemaTypes)
    data.(loadTime) data.(wordCount).

(** [n] copies of the letter x. *)
Definition xs (n : nat) : jsstring := repeat 120%N n.

(** A page whose title has [t] code units and whose meta description has
    [m]. *)
Definition sized (t m : nat) : WebsiteData.t :=
  WebsiteData.mk (xs t) (xs m) [] [] [] "" false [] 100 0.

(** A page that mentions one year. *)
Definition datedPage : WebsiteData.t :=
  WebsiteData.mk "" "" [] [] [] "Updated guide for 2026" false [] 100 4.

(** A page whose twelve factor scores sum to 690. *)
Definition page690 : WebsiteData.t :=
  WebsiteData.mk "Twelve chars" (xs 51)
    [ Heading.mk 1 "Guide"; Heading.mk 2 "Is it?"; Heading.mk 3 "More";
      Heading.mk 2 "End" ]
    [] [] "a: tl;dr summary conclusion author expert" true
    [ lit "FAQPage"; lit "Article"; lit "HowTo" ] 100 500.

(** * Properties *)

Arguments lit : simpl never.
Arguments toString : simpl never.

Ltac split_ifs :=
  repeat match goal with
         | |- context [if ?b then _ else _] => destruct b eqn:?
         end.

(** ** The rule-based scorers: frames and bounds *)

Ltac framed_tac :=
  intros rs sc; cbv beta iota delta [push]; split_ifs; cbn [fst snd app];
  rewrite ?app_nil_r, ?Z.add_0_r; reflexivity.

Lemma titleRule_framed d : framed (titleRule d).
Proof. unfold framed, titleRule. framed_tac. Qed.

Lemma metaDescriptionRule_framed d : framed (metaDescriptionRule d).
Proof. unfold framed, metaDescriptionRule. framed_tac. Qed.

Lemma headingRule_framed d : framed (headingRule d).
Proof. unfold framed, headingRule. framed_tac. Qed.

Lemma imageRule_framed d : framed (imageRule d).
Proof. unfold framed, imageRule. framed_tac. Qed.

Lemma schemaRule_framed d : framed (schemaRule d).
Proof. unfold framed, schemaRule. framed_tac. Qed.

Lemma loadTimeRule_framed d : framed (loadTimeRule d).
Proof. unfold framed, loadTimeRule. framed_tac. Qed.

(** The findings and the raw sum of [analyzeTraditionalSeo], rule by rule. *)
Lemma traditionalSeoRules_split d :
  traditionalSeoRules d =
  (fst (titleRule d ([], 0)) ++ fst (metaDescriptionRule d ([], 0))
   ++ fst (headingRule d ([], 0)) ++ fst (imageRule d ([], 0))
   ++ fst (schemaRule d ([], 0)) ++ fst (loadTimeRule d ([], 0)),
   snd (titleRule d ([], 0)) + snd (metaDescriptionRule d ([], 0))
   + snd (headingRule d ([], 0)) + snd (imageRule d ([], 0))
   + snd (schemaRule d ([], 0)) + snd (loadTimeRule d ([], 0))).
Proof.
  unfold traditionalSeoRules.
  rewrite (surjective_pairing (titleRule d ([], 0))).
  rewrite (metaDescriptionRule_framed d), (headingRule_framed d),
    (imageRule_framed d), (schemaRule_framed d), (loadTimeRule_framed d).
  rewrite <- !app_assoc. reflexivity.
Qed.

Ltac worth_tac := cbv beta iota delta [push]; split_ifs; cbn [fst snd]; lia.

Lemma titleRule_worth d : 0 <= snd (titleRule d ([], 0)) <= 20.
Proof. unfold titleRule. worth_tac. Qed.

Lemma metaDescriptionRule_worth d :
  0 <= snd (metaDescriptionRule d ([], 0)) <= 20.
Proof. unfold metaDescriptionRule. worth_tac. Qed.

Lemma headingRule_worth d : 0 <= snd (headingRule d ([], 0)) <= 15.
Proof. unfold headingRule. worth_tac. Qed.

Lemma imageRule_worth d : 0 <= snd (imageRule d ([], 0)) <= 15.
Proof. unfold imageRule. worth_tac. Qed.

Lemma schemaRule_worth d : 0 <= snd (schemaRule d ([], 0)) <= 15.
Proof. unfold schemaRule. worth_tac. Qed.

Lemma loadTimeRule_worth d : 0 <= snd (loadTimeRule d ([], 0)) <= 15.
Proof. unfold loadTimeRule. worth_tac. Qed.

Lemma traditionalSeoRules_raw d : 0 <= snd (traditionalSeoRules d) <= 100.
Proof.
  rewrite traditionalSeoRules_split; cbn [snd].
  pose proof (titleRule_worth d). pose proof (metaDescriptionRule_worth d).
  pose proof (headingRule_worth d). pose proof (imageRule_worth d).
  pose proof (schemaRule_worth d). pose proof (loadTimeRule_worth d). lia.
Qed.

Lemma analyzeTraditionalSeo_unfold d :
  analyzeTraditionalSeo d =
  ScoreResult.mk (fst (traditionalSeoRules d))
                 (Z.min (snd (traditionalSeoRules d)) maxScore).
Proof.
  unfold analyzeTraditionalSeo. destruct (traditionalSeoRules d); reflexivity.
Qed.

Section GeoFacts.
Context {cm : CaseMapping}.

Lemma geoStructureRule_framed d : framed (geoStructureRule d).
Proof. unfold framed, geoStructureRule. framed_tac. Qed.

Lemma geoTldrRule_framed d : framed (geoTldrRule d).
Proof. unfold framed, geoTldrRule. framed_tac. Qed.

Lemma geoQaRule_framed d : framed (geoQaRule d).
Proof. unfold framed, geoQaRule. framed_tac. Qed.

Lemma geoSchemaRule_framed d : framed (geoSchemaRule d).
Proof. unfold framed, geoSchemaRule. framed_tac. Qed.

Lemma geoEntityRule_framed d : framed (geoEntityRule d).
Proof. unfold framed, geoEntityRule. framed_tac. Qed.

Lemma geoRules_split d :
  geoRules d =
  (fst (geoStructureRule d ([], 0)) ++ fst (geoTldrRule d ([], 0))
   ++ fst (geoQaRule d ([], 0)) ++ fst (geoSchemaRule d ([], 0))
   ++ fst (geoEntityRule d ([], 0)),
   snd (geoStructureRule d ([], 0)) + snd (geoTldrRule d ([], 0))
   + snd (geoQaRule d ([], 0)) + snd (geoSchemaRule d ([], 0))
   + snd (geoEntityRule d ([], 0))).
Proof.
  unfold geoRules.
  rewrite (surjective_pairing (geoStructureRule d ([], 0))).
  rewrite (geoTldrRule_framed d), (geoQaRule_framed d),
    (geoSchemaRule_framed d), (geoEntityRule_framed d).
  rewrite <- !app_assoc. reflexivity.
Qed.

(** Each rule of [analyzeGeo] pushes one finding: the success variant with
    its points, or the other variant with none. *)
Lemma geoStructureRule_outcome d :
  exists f, geoStructureRule d ([], 0)
            = ([f], if hasH2Structure d then 20 else 0)
    /\ Finding.type f
       = (if hasH2Structure d then Kind.success else Kind.warning)
    /\ Finding.title f
       = (if hasH2Structure d
          then lit "Content structured with H2 headings"
          else lit "Poor heading structure for AI").
Proof.
  unfold geoStructureRule, push.
  destruct (hasH2Structure d); eexists; repeat split.
Qed.

Lemma geoTldrRule_outcome d :
  exists f, geoTldrRule d ([], 0) = ([f], if hasTldr d then 25 else 0)
    /\ Finding.type f = (if hasTldr d then Kind.success else Kind.error)
    /\ Finding.title f
       = (if hasTldr d
          then lit "Summary content present"
          else lit "No TL;DR summary found").
Proof.
  unfold geoTldrRule, push.
  destruct (hasTldr d); eexists; repeat split.
Qed.

Lemma geoQaRule_outcome d :
  exists f, geoQaRule d ([], 0) = ([f], if hasQAFormat d then 20 else 0)
    /\ Finding.type f
       = (if hasQAFormat d then Kind.success else Kind.warning)
    /\ Finding.title f
       = (if hasQAFormat d
          then lit "Question-answer format detected"
          else lit "Limited question-answer format").
Proof.
  unfold geoQaRule, push.
  destruct (hasQAFormat d); eexists; repeat split.
Qed.

Lemma geoSchemaRule_outcome d :
  exists f, geoSchemaRule d ([], 0) = ([f], if d.(hasSchema) then 20 else 0)
    /\ Finding.type f
       = (if d.(hasSchema) then Kind.success else Kind.error)
    /\ Finding.title f
       = (if d.(hasSchema)
          then lit "Schema markup enhances AI understanding"
          else lit "Missing schema markup").
Proof.
  unfold geoSchemaRule, push.
  destruct (hasSchema d); eexists; repeat split.
Qed.

Lemma geoEntityRule_outcome d :
  exists f, geoEntityRule d ([], 0) = ([f], if hasEntities d then 15 else 0)
    /\ Finding.type f
       = (if hasEntities d then Kind.success else Kind.warning)
    /\ Finding.title f
       = (if hasEntities d
          then lit "Good entity and semantic clarity"
          else lit "Moderate entity and semantic clarity").
Proof.
  unfold geoEntityRule, push.
  destruct (hasEntities d); eexists; repeat split.
Qed.

Lemma analyzeGeo_unfold d :
  analyzeGeo d =
  ScoreResult.mk (fst (geoRules d)) (Z.min (snd (geoRules d)) maxScore).
Proof. unfold analyzeGeo. destruct (geoRules d); reflexivity. Qed.

Lemma geoRules_raw d : 0 <= snd (geoRules d) <= 100.
Proof.
  rewrite geoRules_split; cbn [snd].
  destruct (geoStructureRule_outcome d) as [f1 [-> _]].
  destruct (geoTldrRule_outcome d) as [f2 [-> _]].
  destruct (geoQaRule_outcome d) as [f3 [-> _]].
  destruct (geoSchemaRule_outcome d) as [f4 [-> _]].
  destruct (geoEntityRule_outcome d) as [f5 [-> _]].
  cbn [snd]. split_ifs; lia.
Qed.

End GeoFacts.

(** C2. For every page the score of [analyzeTraditionalSeo] and the score
    of [analyzeGeo] lie in [0,100], and in each the raw sum of the rule
    contributions already lies in [0,100], so that the final [Math.min]
    leaves it as it is. *)
Theorem scores_within_bounds :
  forall (cm : CaseMapping) (data : WebsiteData.t),
    0 <= (analyzeTraditionalSeo data).(ScoreResult.score) <= 100
    /\ 0 <= (analyzeGeo data).(ScoreResult.score) <= 100
    /\ 0 <= snd (traditionalSeoRules data) <= 100
    /\ 0 <= snd (geoRules data) <= 100
    /\ (analyzeTraditionalSeo data).(ScoreResult.score)
       = snd (traditionalSeoRules data)
    /\ (analyzeGeo data).(ScoreResult.score) = snd (geoRules data).
Proof.
  intros cm data.
  pose proof (traditionalSeoRules_raw data) as Ht.
  pose proof (geoRules_raw data) as Hg.
  rewrite analyzeTraditionalSeo_unfold, analyzeGeo_unfold.
  cbn [ScoreResult.score]. unfold maxScore. lia.
Qed.

(** C10. [analyzeGeo] returns five findings, one per rule and in the order
    of the rules (H2 structure, TL;DR, question-answer format, schema
    markup, entity clarity); the finding of a rule is its success variant
    when the rule's test holds and its warning or error variant otherwise,
    and the score is the sum of 20, 25, 20, 20 and 15 over the rules whose
    test holds. *)
Theorem analyzeGeo_five_findings :
  forall (cm : CaseMapping) (data : WebsiteData.t),
    let r := analyzeGeo data in
    List.length r.(ScoreResult.results) = 5%nat
    /\ kinds r.(ScoreResult.results)
       = [ if hasH2Structure data then Kind.success else Kind.warning;
           if hasTldr data then Kind.success else Kind.error;
           if hasQAFormat data then Kind.success else Kind.warning;
           if data.(hasSchema) then Kind.success else Kind.error;
           if hasEntities data then Kind.success else Kind.warning ]
    /\ titles r.(ScoreResult.results)
       = [ if hasH2Structure data
           then lit "Content structured with H2 headings"
           else lit "Poor heading structure for AI";
           if hasTldr data
           then lit "Summary content present"
           else lit "No TL;DR summary found";
           if hasQAFormat data
           then lit "Question-answer format detected"
           else lit "Limited question-answer format";
           if data.(hasSchema)
           then lit "Schema markup enhances AI understanding"
           else lit "Missing schema markup";
           if hasEntities data
           then lit "Good entity and semantic clarity"
           else lit "Moderate entity and semantic clarity" ]
    /\ r.(ScoreResult.score)
       = (if hasH2Structure data then 20 else 0)
         + (if hasTldr data then 25 else 0)
         + (if hasQAFormat data then 20 else 0)
         + (if data.(hasSchema) then 20 else 0)
         + (if hasEntities data then 15 else 0).
Proof.
  intros cm data r. subst r.
  rewrite analyzeGeo_unfold, geoRules_split.
  destruct (geoStructureRule_outcome data) as [f1 [-> [K1 T1]]].
  destruct (geoTldrRule_outcome data) as [f2 [-> [K2 T2]]].
  destruct (geoQaRule_outcome data) as [f3 [-> [K3 T3]]].
  destruct (geoSchemaRule_outcome data) as [f4 [-> [K4 T4]]].
  destruct (geoEntityRule_outcome data) as [f5 [-> [K5 T5]]].
  unfold kinds, titles.
  cbn [fst snd app map List.length ScoreResult.results ScoreResult.score].
  rewrite K1, K2, K3, K4, K5, T1, T2, T3, T4, T5.
  split; [reflexivity | split; [reflexivity | split; [reflexivity |]]].
  unfold maxScore.
  destruct (hasH2Structure data), (hasTldr data), (hasQAFormat data),
    (hasSchema data), (hasEntities data); reflexivity.
Qed.

(** ** Title and meta description boundaries *)

(** On a non-empty title, and on a non-empty meta description, the rule
    pushes a success worth 20 inside the range and a warning worth 10
    outside. *)
Lemma titleRule_outcome d :
  truthy d.(title) = true ->
  exists f,
    titleRule d ([], 0)
    = ([f], if inRange 30 60 (Js.length d.(title)) then 20 else 10)
    /\ Finding.type f
       = (if inRange 30 60 (Js.length d.(title))
          then Kind.success else Kind.warning).
Proof.
  intros Ht. unfold titleRule, push, inRange. rewrite Ht. cbn [negb].
  destruct (Z.ltb_spec (Js.length (title d)) 30);
    destruct (Z.ltb_spec 60 (Js.length (title d)));
    destruct (Z.leb_spec 30 (Js.length (title d)));
    destruct (Z.leb_spec (Js.length (title d)) 60);
    try lia; eexists; split; reflexivity.
Qed.

Lemma metaDescriptionRule_outcome d :
  truthy d.(metaDescription) = true ->
  exists f,
    metaDescriptionRule d ([], 0)
    = ([f], if inRange 120 160 (Js.length d.(metaDescription))
            then 20 else 10)
    /\ Finding.type f
       = (if inRange 120 160 (Js.length d.(metaDescription))
          then Kind.success else Kind.warning).
Proof.
  intros Ht. unfold metaDescriptionRule, push, inRange. rewrite Ht.
  cbn [negb].
  destruct (Z.ltb_spec (Js.length (metaDescription d)) 120);
    destruct (Z.ltb_spec 160 (Js.length (metaDescription d)));
    destruct (Z.leb_spec 120 (Js.length (metaDescription d)));
    destruct (Z.leb_spec (Js.length (metaDescription d)) 160);
    try lia; eexists; split; reflexivity.
Qed.

(** The title rule always pushes exactly one finding. *)
Lemma titleRule_one d : exists f, fst (titleRule d ([], 0)) = [f].
Proof.
  unfold titleRule, push. split_ifs; eexists; reflexivity.
Qed.

Lemma inRange_spec lo hi n : inRange lo hi n = true <-> lo <= n <= hi.
Proof. unfold inRange. rewrite andb_true_iff, !Z.leb_le. tauto. Qed.

Lemma kind_by_range (b : bool) (k : Kind.t) :
  k = (if b then Kind.success else Kind.warning) ->
  (k = Kind.success <-> b = true) /\ (k = Kind.warning <-> b = false).
Proof. intros ->. destruct b; split; split; congruence. Qed.

(** C4. On a page with a title, the first finding of
    [analyzeTraditionalSeo] is a success exactly when the title has 30 to
    60 code units, both ends included, and a warning otherwise; against the
    same page without its title the score is 20 higher in the first case
    and 10 higher in the second. The same holds of the second finding and
    a meta description of 120 to 160 code units. *)
Theorem title_and_meta_boundaries :
  forall data : WebsiteData.t,
    (truthy data.(title) = true ->
     exists f,
       nth_error (analyzeTraditionalSeo data).(ScoreResult.results) 0 = Some f
       /\ (Finding.type f = Kind.success
           <-> 30 <= Js.length data.(title) <= 60)
       /\ (Finding.type f = Kind.warning
           <-> ~ 30 <= Js.length data.(title) <= 60)
       /\ (analyzeTraditionalSeo data).(ScoreResult.score)
          = (analyzeTraditionalSeo (withTitle data [])).(ScoreResult.score)
            + (if inRange 30 60 (Js.length data.(title)) then 20 else 10))
    /\ (truthy data.(metaDescription) = true ->
        exists f,
          nth_error (analyzeTraditionalSeo data).(ScoreResult.results) 1
          = Some f
          /\ (Finding.type f = Kind.success
              <-> 120 <= Js.length data.(metaDescription) <= 160)
          /\ (Finding.type f = Kind.warning
              <-> ~ 120 <= Js.length data.(metaDescription) <= 160)
          /\ (analyzeTraditionalSeo data).(ScoreResult.score)
             = (analyzeTraditionalSeo
                  (withMetaDescription data [])).(ScoreResult.score)
               + (if inRange 120 160 (Js.length data.(metaDescription))
                  then 20 else 10)).
Proof.
  intros data.
  pose proof (traditionalSeoRules_raw data) as Hraw.
  pose proof (titleRule_worth data) as Wt.
  pose proof (metaDescriptionRule_worth data) as Wm.
  pose proof (headingRule_worth data) as Wh.
  pose proof (imageRule_worth data) as Wi.
  pose proof (schemaRule_worth data) as Ws.
  pose proof (loadTimeRule_worth data) as Wl.
  split; intros Ht.
  - destruct (titleRule_outcome data Ht) as [f [Hf Hk]].
    exists f.
    rewrite !analyzeTraditionalSeo_unfold. cbn [ScoreResult.results ScoreResult.score].
    rewrite !traditionalSeoRules_split in *. cbn [fst snd] in *.
    change (metaDescriptionRule (withTitle data []))
      with (metaDescriptionRule data).
    change (headingRule (withTitle data [])) with (headingRule data).
    change (imageRule (withTitle data [])) with (imageRule data).
    change (schemaRule (withTitle data [])) with (schemaRule data).
    change (loadTimeRule (withTitle data [])) with (loadTimeRule data).
    change (snd (titleRule (withTitle data []) ([], 0))) with 0.
    rewrite Hf in *. cbn [fst snd app nth_error] in *.
    destruct (kind_by_range _ _ Hk) as [Hs Hw].
    rewrite Hs, Hw, <- not_true_iff_false, inRange_spec.
    repeat split; try tauto.
    unfold maxScore. destruct (inRange 30 60 (Js.length (title data))); lia.
  - destruct (metaDescriptionRule_outcome data Ht) as [f [Hf Hk]].
    destruct (titleRule_one data) as [f0 Hf0].
    exists f.
    rewrite !analyzeTraditionalSeo_unfold. cbn [ScoreResult.results ScoreResult.score].
    rewrite !traditionalSeoRules_split in *. cbn [fst snd] in *.
    change (titleRule (withMetaDescription data [])) with (titleRule data).
    change (headingRule (withMetaDescription data [])) with (headingRule data).
    change (imageRule (withMetaDescription data [])) with (imageRule data).
    change (schemaRule (withMetaDescription data [])) with (schemaRule data).
    change (loadTimeRule (withMetaDescription data []))
      with (loadTimeRule data).
    change (snd (metaDescriptionRule (withMetaDescription data []) ([], 0)))
      with 0.
    rewrite Hf0, Hf in *. cbn [fst snd app nth_error] in *.
    destruct (kind_by_range _ _ Hk) as [Hs Hw].
    rewrite Hs, Hw, <- not_true_iff_false, inRange_spec.
    repeat split; try tauto.
    unfold maxScore.
    destruct (inRange 120 160 (Js.length (metaDescription data))); lia.
Qed.

(** The boundaries at a title of 30 and a meta description of 160 code
    units. *)
Lemma title_and_meta_boundaries_witness :
  truthy (sized 30 160).(title) = true
  /\ truthy (sized 30 160).(metaDescription) = true
  /\ (analyzeTraditionalSeo (sized 30 160)).(ScoreResult.score)
     = (analyzeTraditionalSeo
          (withTitle (sized 30 160) [])).(ScoreResult.score) + 20
  /\ (analyzeTraditionalSeo (sized 30 160)).(ScoreResult.score)
     = (analyzeTraditionalSeo
          (withMetaDescription (sized 30 160) [])).(ScoreResult.score) + 20.
Proof.
  destruct (title_and_meta_boundaries (sized 30 160)) as [Ht Hm].
  destruct (Ht eq_refl) as [f [_ [_ [_ Hs]]]].
  destruct (Hm eq_refl) as [g [_ [_ [_ Hs']]]].
  split; [reflexivity | split; [reflexivity | split]].
  - exact Hs.
  - exact Hs'.
Defined.

(** The eight boundary lengths. *)
Example boundary_lengths :
  headKinds (sized 29 119) = ([Kind.warning; Kind.warning], 35)
  /\ headKinds (sized 30 120) = ([Kind.success; Kind.success], 55)
  /\ headKinds (sized 60 160) = ([Kind.success; Kind.success], 55)
  /\ headKinds (sized 61 161) = ([Kind.warning; Kind.warning], 35).
Proof. repeat split; vm_compute; reflexivity. Qed.

(** ** The empty page *)

(** On the empty page the findings of kind error or warning are five, not
    three. *)
Lemma emptyPage_not_three_findings :
  ~ threeProblemFindings (analyzeTraditionalSeo emptyPage).
Proof.
  intros [_ [H _]]. vm_compute in H. discriminate H.
Qed.

(** C5, amended. A page with an empty title, an empty meta description, no
    heading, no image, no schema markup and a load time of 5000 ms scores 0
    in [analyzeTraditionalSeo] and gets five findings, none of them a
    success: the errors for the missing title, the missing meta description
    and the missing H1, then the warnings for the absent schema markup and
    the slow load time. *)
Theorem emptyPage_findings :
  forall (links : list Link.t) (content : jsstring)
         (schemaTypes : list jsstring) (wordCount : Z),
    let r := analyzeTraditionalSeo
               (WebsiteData.mk [] [] [] [] links content false schemaTypes
                               5000 wordCount) in
    r.(ScoreResult.score) = 0
    /\ kinds r.(ScoreResult.results)
       = [Kind.error; Kind.error; Kind.error; Kind.warning; Kind.warning]
    /\ titles r.(ScoreResult.results)
       = [ lit "Missing title tag"; lit "Missing meta description";
           lit "Missing H1 tag"; lit "No schema markup found";
           lit "Slow page load time" ]
    /\ List.length (filter isProblem r.(ScoreResult.results)) = 5%nat.
Proof.
  intros links content schemaTypes wordCount r. subst r.
  repeat split; reflexivity.
Qed.

(** ** Content suggestions *)

(** C6. [generateAiImprovements] stages its list on the score: below 50 the
    two critical actions, below 75 three more, below 85 two more, from 85
    on the three polish actions; the stages unlocked accumulate in this
    order and the first six are returned. Hence at most six items; at score
    30 both critical actions are in the list; at score 90 the list is the
    three polish actions. *)
Theorem generateAiImprovements_staged :
  forall (data : WebsiteData.t) (aiScore : Z),
    generateAiImprovements data aiScore
    = slice0 6
        ((if aiScore <? 50 then [tldrSection; faqSchema] else [])
         ++ (if aiScore <? 75
             then [clearHeadings; peopleAlsoAsk; datesAndStatistics] else [])
         ++ (if aiScore <? 85 then [voiceSearch; comparisonTables] else [])
         ++ (if 85 <=? aiScore
             then [authoritativeSources; stepByStep; articleSchema] else []))
    /\ generateAiImprovements data aiScore
       = (if aiScore <? 50
          then [tldrSection; faqSchema; clearHeadings; peopleAlsoAsk;
                datesAndStatistics; voiceSearch]
          else if aiScore <? 75
          then [clearHeadings; peopleAlsoAsk; datesAndStatistics;
                voiceSearch; comparisonTables]
          else if aiScore <? 85
          then [voiceSearch; comparisonTables]
          else [authoritativeSources; stepByStep; articleSchema])
    /\ (List.length (generateAiImprovements data aiScore) <= 6)%nat
    /\ In tldrSection (generateAiImprovements data 30)
    /\ In faqSchema (generateAiImprovements data 30)
    /\ generateAiImprovements data 90
       = [authoritativeSources; stepByStep; articleSchema].
Proof.
  intros data aiScore.
  assert (Hcases :
    generateAiImprovements data aiScore
    = (if aiScore <? 50
       then [tldrSection; faqSchema; clearHeadings; peopleAlsoAsk;
             datesAndStatistics; voiceSearch]
       else if aiScore <? 75
       then [clearHeadings; peopleAlsoAsk; datesAndStatistics;
             voiceSearch; comparisonTables]
       else if aiScore <? 85
       then [voiceSearch; comparisonTables]
       else [authoritativeSources; stepByStep; articleSchema])).
  { unfold generateAiImprovements, push, slice0.
    destruct (Z.ltb_spec aiScore 50); destruct (Z.ltb_spec aiScore 75);
      destruct (Z.ltb_spec aiScore 85); destruct (Z.leb_spec 85 aiScore);
      try lia; reflexivity. }
  split; [| split; [exact Hcases | split; [| split; [| split]]]].
  - unfold generateAiImprovements, push, slice0.
    destruct (aiScore <? 50), (aiScore <? 75), (aiScore <? 85),
      (85 <=? aiScore); reflexivity.
  - rewrite Hcases. split_ifs; cbn [List.length]; lia.
  - cbv [generateAiImprovements push slice0 Z.ltb Z.leb Z.compare
         Pos.compare Pos.compare_cont app firstn].
    left; reflexivity.
  - cbv [generateAiImprovements push slice0 Z.ltb Z.leb Z.compare
         Pos.compare Pos.compare_cont app firstn].
    right; left; reflexivity.
  - reflexivity.
Qed.

(** C9. The keyword, blog title, structure, FAQ and platform fields of
    [generateContentSuggestions] are the same for every page and every
    score: five keywords, four blog titles, twelve outline lines, four
    FAQs, and the labels medium for chatgpt, low for perplexity, medium
    for claude and low for bard. *)
Theorem contentSuggestions_templates :
  forall (data1 data2 : WebsiteData.t) (aiScore1 aiScore2 : Z),
    let c1 := generateContentSuggestions data1 aiScore1 in
    let c2 := generateContentSuggestions data2 aiScore2 in
    c1.(ContentSuggestions.missingKeywords)
    = c2.(ContentSuggestions.missingKeywords)
    /\ c1.(ContentSuggestions.blogTitles) = c2.(ContentSuggestions.blogTitles)
    /\ c1.(ContentSuggestions.contentStructure)
       = c2.(ContentSuggestions.contentStructure)
    /\ c1.(ContentSuggestions.faqs) = c2.(ContentSuggestions.faqs)
    /\ c1.(ContentSuggestions.aiVisibility)
       = c2.(ContentSuggestions.aiVisibility)
    /\ c1.(ContentSuggestions.aiVisibility)
       = PlatformVisibility.mk Impact.medium Impact.low Impact.medium
                               Impact.low
    /\ List.length c1.(ContentSuggestions.missingKeywords) = 5%nat
    /\ List.length c1.(ContentSuggestions.blogTitles) = 4%nat
    /\ List.length c1.(ContentSuggestions.contentStructure) = 12%nat
    /\ List.length c1.(ContentSuggestions.faqs) = 4%nat.
Proof.
  intros data1 data2 aiScore1 aiScore2 c1 c2. subst c1 c2.
  repeat split; reflexivity.
Qed.

(** ** Comparison *)

(** C7. [compareWebsites] returns the differences report2 minus report1 of
    the SEO and AI scores. With the AI-visibility reports it also returns
    the difference of their overall scores, names url2 the better performer
    exactly when the three differences sum to more than 0, and url1
    otherwise; the version without those reports sums the two score
    differences only. [keyDifferences] has seo entries exactly when the SEO
    difference exceeds 10 in absolute value, ai entries exactly when the AI
    difference does, and visibility entries exactly when the visibility
    difference exceeds 15 in absolute value (never without the reports). *)
Theorem compareWebsites_differences :
  forall (cm : CaseMapping) (data1 data2 : WebsiteData.t)
         (report1 report2 : AuditReport.t)
         (aiVisibility1 aiVisibility2 : AiVisibilityReport.t),
    let seo := report2.(AuditReport.seoScore) - report1.(AuditReport.seoScore) in
    let ai := report2.(AuditReport.aiScore) - report1.(AuditReport.aiScore) in
    let vis := aiVisibility2.(AiVisibilityReport.overallScore)
               - aiVisibility1.(AiVisibilityReport.overallScore) in
    let c := compareWebsites data1 report1 data2 report2
                             aiVisibility1 aiVisibility2 in
    let e := Earlier.compareWebsites data1 report1 data2 report2 in
    (c.(Differences.seoScoreDiff) = seo
     /\ c.(Differences.aiScoreDiff) = ai
     /\ c.(Differences.aiVisibilityDiff) = Some vis
     /\ (c.(Differences.betterPerformer) = Performer.url2
         <-> seo + vis + ai > 0)
     /\ (c.(Differences.betterPerformer) = Performer.url1
         <-> ~ seo + vis + ai > 0)
     /\ (hasCategory Category.seo c.(Differences.keyDifferences) = true
         <-> Z.abs seo > 10)
     /\ (hasCategory Category.ai c.(Differences.keyDifferences) = true
         <-> Z.abs ai > 10)
     /\ (hasCategory Category.visibility c.(Differences.keyDifferences) = true
         <-> Z.abs vis > 15))
    /\ (e.(Differences.seoScoreDiff) = seo
        /\ e.(Differences.aiScoreDiff) = ai
        /\ e.(Differences.aiVisibilityDiff) = None
        /\ (e.(Differences.betterPerformer) = Performer.url2 <-> seo + ai > 0)
        /\ (e.(Differences.betterPerformer) = Performer.url1
            <-> ~ seo + ai > 0)
        /\ (hasCategory Category.seo e.(Differences.keyDifferences) = true
            <-> Z.abs seo > 10)
        /\ (hasCategory Category.ai e.(Differences.keyDifferences) = true
            <-> Z.abs ai > 10)
        /\ hasCategory Category.visibility e.(Differences.keyDifferences)
           = false).
Proof.
  intros cm data1 data2 report1 report2 aiVisibility1 aiVisibility2
         seo ai vis c e.
  subst c e.
  unfold compareWebsites, Earlier.compareWebsites, seoDifferences, push,
    hasCategory.
  fold seo ai vis.
  cbn [Differences.seoScoreDiff Differences.aiScoreDiff
       Differences.aiVisibilityDiff Differences.betterPerformer
       Differences.keyDifferences].
  destruct (Z.ltb_spec 0 (seo + ai + vis));
    destruct (Z.ltb_spec 0 (seo + ai));
    destruct (Z.ltb_spec 10 (Z.abs seo));
    destruct (Z.ltb_spec 10 (Z.abs ai));
    destruct (Z.ltb_spec 15 (Z.abs vis));
    cbn [app existsb KeyDifference.category Category.eqb orb];
    repeat split; intros; try reflexivity; try discriminate; try lia.
Qed.

(** The comparison of a 70/40 report with an 85/55 one. *)
Example compare_70_40_with_85_55 :
  let e := Earlier.compareWebsites (cm := asciiLower) emptyPage
             (AuditReport.mk 70 40) emptyPage (AuditReport.mk 85 55) in
  e.(Differences.seoScoreDiff) = 15
  /\ e.(Differences.aiScoreDiff) = 15
  /\ e.(Differences.betterPerformer) = Performer.url2
  /\ map KeyDifference.category e.(Differences.keyDifferences)
     = [Category.seo; Category.seo; Category.ai; Category.ai; Category.ai].
Proof. repeat split; vm_compute; reflexivity. Qed.

(** ** The twelve-factor report *)

(** The thresholds of [statusOf]. *)
Lemma statusOf_spec s :
  (statusOf s = Status.pass <-> 80 <= s)
  /\ (statusOf s = Status.warning <-> 50 <= s < 80)
  /\ (statusOf s = Status.fail <-> s < 50).
Proof.
  unfold statusOf.
  destruct (Z.leb_spec 80 s); destruct (Z.leb_spec 50 s);
    repeat split; intros; try discriminate; try lia; reflexivity.
Qed.

Lemma if_same {A : Type} (b : bool) (x : A) : (if b then x else x) = x.
Proof. destruct b; reflexivity. Qed.

Ltac eval_names :=
  repeat match goal with
         | |- context [Js.eqb (lit ?a) (lit ?b)] =>
           let v := eval vm_compute in (Js.eqb (lit a) (lit b)) in
           change (Js.eqb (lit a) (lit b)) with v
         end.

(** Both passes over the factors only append. *)
Lemma onFail_app recs f : onFail recs f = recs ++ onFail [] f.
Proof.
  unfold onFail, push. split_ifs; cbn [app]; rewrite ?app_nil_r; reflexivity.
Qed.

Lemma onWarning_app recs f : onWarning recs f = recs ++ onWarning [] f.
Proof.
  unfold onWarning, push.
  split_ifs; cbn [app]; rewrite ?app_nil_r; reflexivity.
Qed.

Lemma fold_onFail fs :
  forall recs, fold_left onFail fs recs = recs ++ flat_map (onFail []) fs.
Proof.
  induction fs as [| f fs IH]; intros recs; cbn [fold_left flat_map].
  - rewrite app_nil_r. reflexivity.
  - rewrite IH, onFail_app, <- app_assoc. reflexivity.
Qed.

Lemma fold_onWarning fs :
  forall recs,
    fold_left onWarning fs recs = recs ++ flat_map (onWarning []) fs.
Proof.
  induction fs as [| f fs IH]; intros recs; cbn [fold_left flat_map].
  - rewrite app_nil_r. reflexivity.
  - rewrite IH, onWarning_app, <- app_assoc. reflexivity.
Qed.

Section VisibilityFacts.
Context {cm : CaseMapping}.

(** The twelve blocks, written out. *)
Lemma visibilityFactors_eq year d :
  visibilityFactors year d =
  ([ Factor.mk "Public Crawlability" (assessCrawlability d)
       "Page accessibility for AI crawlers without login walls or blocking"
       (statusOf (assessCrawlability d));
     Factor.mk "HTML Structure" (assessHtmlStructure d)
       "Clean semantic HTML with proper heading hierarchy"
       (statusOf (assessHtmlStructure d));
     Factor.mk "Content Clarity" (assessContentClarity d)
       "Clear introduction, topic definition, and direct question answers"
       (statusOf (assessContentClarity d));
     Factor.mk "Content Scannability" (assessScanability d)
       "Short paragraphs and easy-to-summarize content structure"
       (statusOf (assessScanability d));
     Factor.mk "TL;DR & Summary" (assessSummarySections d)
       "Quick summary sections at top or bottom of content"
       (statusOf (assessSummarySections d));
     Factor.mk "Q&A Format" (assessQaFormat d)
       "Structured question-answer blocks that AI can easily extract"
       (statusOf (assessQaFormat d));
     Factor.mk "Schema Markup" (assessSchemaMarkup d)
       "FAQPage, HowTo, Article, and other relevant structured data"
       (statusOf (assessSchemaMarkup d));
     Factor.mk "Trusted Entities" (assessTrustedEntities d)
       "References to organizations, authority sources, and credible links"
       (statusOf (assessTrustedEntities d));
     Factor.mk "Data Extraction" (assessDataFormats d)
       "Bullet lists, tables, statistics, and structured information"
       (statusOf (assessDataFormats d));
     Factor.mk "Readability Level" (assessReadability d)
       "8th-grade reading level, minimal jargon and marketing fluff"
       (statusOf (assessReadability d));
     Factor.mk "Content Freshness" (assessFreshness year d)
       "Updated dates, current year references, and freshness indicators"
       (statusOf (assessFreshness year d));
     Factor.mk "Credibility Markers" (assessCredibility d)
       "Author information, contact details, and about us content"
       (statusOf (assessCredibility d)) ],
   0 + assessCrawlability d + assessHtmlStructure d + assessContentClarity d
   + assessScanability d + assessSummarySections d + assessQaFormat d
   + assessSchemaMarkup d + assessTrustedEntities d + assessDataFormats d
   + assessReadability d + assessFreshness year d + assessCredibility d).
Proof. reflexivity. Qed.

Lemma analyzeAiPlatformVisibility_unfold year d :
  analyzeAiPlatformVisibility year d =
  let factors := fst (visibilityFactors year d) in
  let overallScore := overallOf (snd (visibilityFactors year d)) in
  AiVisibilityReport.mk overallScore (summaryOf overallScore factors) factors
    (generateAiVisibilityRecommendations factors overallScore).
Proof.
  unfold analyzeAiPlatformVisibility.
  destruct (visibilityFactors year d); reflexivity.
Qed.

Lemma visibilityFactors_total year d :
  snd (visibilityFactors year d) = sumScores (fst (visibilityFactors year d)).
Proof.
  rewrite visibilityFactors_eq.
  cbn [fst snd sumScores fold_right Factor.score]. lia.
Qed.

(** The recommendations of the report, slot by slot. *)
Lemma recommendations_eq year d :
  generateAiVisibilityRecommendations
    (fst (visibilityFactors year d))
    (overallOf (snd (visibilityFactors year d)))
  = when (isFail (assessSummarySections d)) tldrRemedy
    ++ when (isFail (assessQaFormat d)) faqRemedy
    ++ when (isFail (assessSchemaMarkup d)) structuredDataRemedy
    ++ when (isWarning (assessHtmlStructure d)) headingRemedy
    ++ when (isWarning (assessScanability d)) paragraphRemedy
    ++ when (overallOf (snd (visibilityFactors year d)) <? 70)
            currentYearRemedy.
Proof.
  generalize (overallOf (snd (visibilityFactors year d))) as overall.
  intros overall. rewrite visibilityFactors_eq.
  unfold generateAiVisibilityRecommendations.
  rewrite fold_onFail, fold_onWarning.
  cbn [fst flat_map]. unfold onFail, onWarning.
  cbn [Factor.status Factor.factor]. eval_names. cbv iota.
  rewrite !if_same. cbn [app].
  unfold isFail, isWarning, when, push, slice0.
  destruct (Status.eqb (statusOf (assessSummarySections d)) Status.fail),
    (Status.eqb (statusOf (assessQaFormat d)) Status.fail),
    (Status.eqb (statusOf (assessSchemaMarkup d)) Status.fail),
    (Status.eqb (statusOf (assessHtmlStructure d)) Status.warning),
    (Status.eqb (statusOf (assessScanability d)) Status.warning),
    (overall <? 70); reflexivity.
Qed.

End VisibilityFacts.

(** The shape of the report of [analyzeAiPlatformVisibility]: twelve
    factors; an overall score that is [Math.round] of the sum of their
    scores divided by 1200 and multiplied by 100, in the double arithmetic
    of the analyzer; for each factor the status pass exactly when its score
    is at least 80, warning exactly when it is at least 50 and below 80,
    fail exactly when it is below 50; and at most eight recommendations. *)
Theorem aiVisibility_report_shape :
  forall (cm : CaseMapping) (currentYear : Z) (data : WebsiteData.t),
    let r := analyzeAiPlatformVisibility currentYear data in
    List.length r.(AiVisibilityReport.factors) = 12%nat
    /\ r.(AiVisibilityReport.overallScore)
       = Num.Math_round
           (Num.fmul
              (Num.fdiv (inject_Z (sumScores r.(AiVisibilityReport.factors)))
                        (inject_Z 1200))
              100)
    /\ Forall (fun f =>
                 (f.(Factor.status) = Status.pass <-> 80 <= f.(Factor.score))
                 /\ (f.(Factor.status) = Status.warning
                     <-> 50 <= f.(Factor.score) < 80)
                 /\ (f.(Factor.status) = Status.fail <-> f.(Factor.score) < 50))
              r.(AiVisibilityReport.factors)
    /\ (List.length r.(AiVisibilityReport.recommendations) <= 8)%nat.
Proof.
  intros cm currentYear data r. subst r.
  rewrite analyzeAiPlatformVisibility_unfold.
  cbn [AiVisibilityReport.factors AiVisibilityReport.overallScore
       AiVisibilityReport.recommendations].
  split; [| split; [| split]].
  - rewrite visibilityFactors_eq. reflexivity.
  - rewrite visibilityFactors_total. reflexivity.
  - rewrite visibilityFactors_eq. cbn [fst].
    repeat (apply Forall_cons;
            [cbn [Factor.status Factor.score]; apply statusOf_spec |]).
    apply Forall_nil.
  - unfold generateAiVisibilityRecommendations, slice0.
    rewrite length_firstn. apply Nat.le_min_l.
Qed.

(** The quotient is a double: at a total of 690 it is just below 57.5,
    where the exact quotient is 57.5. *)
Example overallOf_690 :
  overallOf 690 = 57
  /\ Num.Math_round (inject_Z 690 / inject_Z 1200 * 100) = 58.
Proof. split; vm_compute; reflexivity. Qed.

(** A page with that total. *)
Example page690_report :
  let r := analyzeAiPlatformVisibility (cm := asciiLower) 2026 page690 in
  map Factor.score r.(AiVisibilityReport.factors)
  = [80; 100; 30; 40; 100; 60; 100; 0; 20; 80; 0; 80]
  /\ sumScores r.(AiVisibilityReport.factors) = 690
  /\ r.(AiVisibilityReport.overallScore) = 57.
Proof. repeat split; vm_compute; reflexivity. Qed.

(** The empty page fails ten factors and gets three high priority
    recommendations, four recommendations in all. *)
Example emptyPage_report :
  let r := analyzeAiPlatformVisibility (cm := asciiLower) 2026 emptyPage in
  map Factor.score r.(AiVisibilityReport.factors)
  = [80; 0; 0; 10; 0; 0; 0; 0; 20; 85; 0; 40]
  /\ countStatus Status.fail r.(AiVisibilityReport.factors) = 10
  /\ r.(AiVisibilityReport.overallScore) = 20
  /\ r.(AiVisibilityReport.recommendations)
     = [tldrRemedy; faqRemedy; structuredDataRemedy; currentYearRemedy].
Proof. repeat split; vm_compute; reflexivity. Qed.

(** On the empty page the failing factors are more than the
    recommendations. *)
Lemma emptyPage_not_each_factor_remedied :
  ~ eachFactorRemedied
      (analyzeAiPlatformVisibility (cm := asciiLower) 2026 emptyPage).
Proof.
  intros [high [medium H]].
  apply (f_equal (@List.length Recommendation.t)) in H.
  unfold slice0 in H.
  rewrite length_firstn, !length_app, !length_map in H.
  vm_compute in H. discriminate H.
Qed.

(** C8, amended. The recommendations of [analyzeAiPlatformVisibility] are,
    in this order: the high priority remediations of the factors TL;DR &
    Summary, Q&A Format and Schema Markup that fail; the medium priority
    remediations of the factors HTML Structure and Content Scannability
    that are on warning; and the current year recommendation, of medium
    priority, when the overall score is below 70. No other factor
    contributes, so the list has at most six entries and the cap of eight
    removes none. *)
Theorem recommendations_by_priority :
  forall (cm : CaseMapping) (currentYear : Z) (data : WebsiteData.t),
    let r := analyzeAiPlatformVisibility currentYear data in
    let highs :=
      when (isFail (assessSummarySections data)) tldrRemedy
      ++ when (isFail (assessQaFormat data)) faqRemedy
      ++ when (isFail (assessSchemaMarkup data)) structuredDataRemedy in
    let mediums :=
      when (isWarning (assessHtmlStructure data)) headingRemedy
      ++ when (isWarning (assessScanability data)) paragraphRemedy in
    let generic :=
      when (r.(AiVisibilityReport.overallScore) <? 70) currentYearRemedy in
    r.(AiVisibilityReport.recommendations) = highs ++ mediums ++ generic
    /\ r.(AiVisibilityReport.recommendations)
       = slice0 8 (highs ++ mediums ++ generic)
    /\ Forall (fun x => x.(Recommendation.priority) = Priority.high) highs
    /\ Forall (fun x => x.(Recommendation.priority) = Priority.medium)
              (mediums ++ generic)
    /\ (List.length r.(AiVisibilityReport.recommendations) <= 6)%nat
    /\ map (fun f => (f.(Factor.factor), f.(Factor.score), f.(Factor.status)))
           r.(AiVisibilityReport.factors)
       = map (fun p => (fst p, snd p, statusOf (snd p)))
           [ (lit "Public Crawlability", assessCrawlability data);
             (lit "HTML Structure", assessHtmlStructure data);
             (lit "Content Clarity", assessContentClarity data);
             (lit "Content Scannability", assessScanability data);
             (lit "TL;DR & Summary", assessSummarySections data);
             (lit "Q&A Format", assessQaFormat data);
             (lit "Schema Markup", assessSchemaMarkup data);
             (lit "Trusted Entities", assessTrustedEntities data);
             (lit "Data Extraction", assessDataFormats data);
             (lit "Readability Level", assessReadability data);
             (lit "Content Freshness", assessFreshness currentYear data);
             (lit "Credibility Markers", assessCredibility data) ].
Proof.
  intros cm currentYear data r highs mediums generic.
  assert (Hrec : r.(AiVisibilityReport.recommendations)
                 = highs ++ mediums ++ generic).
  { subst r highs mediums generic.
    rewrite analyzeAiPlatformVisibility_unfold.
    cbn [AiVisibilityReport.recommendations AiVisibilityReport.overallScore].
    rewrite recommendations_eq, <- !app_assoc. reflexivity. }
  assert (Hlen : (List.length (highs ++ mediums ++ generic) <= 6)%nat).
  { subst highs mediums generic. unfold when.
    split_ifs; cbn [List.length app]; lia. }
  split; [exact Hrec | split; [| split; [| split; [| split]]]].
  - rewrite Hrec. unfold slice0. symmetry. apply firstn_all2. lia.
  - subst highs. unfold when.
    split_ifs; cbn [app]; repeat constructor.
  - subst mediums generic. unfold when.
    split_ifs; cbn [app]; repeat constructor.
  - rewrite Hrec. exact Hlen.
  - subst r. rewrite analyzeAiPlatformVisibility_unfold.
    cbn [AiVisibilityReport.factors]. rewrite visibilityFactors_eq.
    cbn [fst snd map Factor.factor Factor.score Factor.status].
    reflexivity.
Qed.

(** ** The scorers and their environment *)

(** The same page, analysed in 2025 and in 2026, gets two reports: the
    freshness factor scores 30 and then 70, the overall score 23 and then
    27. *)
Lemma report_changes_with_the_year :
  freshnessOf (invoke (cm := asciiLower) {| fullYear := 2025 |}
                      AiPlatformVisibility datedPage 0) = [30; 23]
  /\ freshnessOf (invoke (cm := asciiLower) {| fullYear := 2026 |}
                         AiPlatformVisibility datedPage 0) = [70; 27]
  /\ invoke (cm := asciiLower) {| fullYear := 2025 |}
            AiPlatformVisibility datedPage 0
     <> invoke (cm := asciiLower) {| fullYear := 2026 |}
               AiPlatformVisibility datedPage 0.
Proof.
  split; [vm_compute; reflexivity | split; [vm_compute; reflexivity |]].
  intros H. apply (f_equal freshnessOf) in H.
  vm_compute in H. discriminate H.
Qed.

(** C1, amended. [analyzeTraditionalSeo], [analyzeGeo] and
    [generateContentSuggestions] return the same result for the same
    arguments in every environment. [analyzeAiPlatformVisibility] reads the
    calendar year of the clock, in its freshness factor only: in any two
    environments the other eleven factors are the same, and the two
    reports are the same whenever the freshness scores at the two years
    agree, in particular whenever the years agree. *)
Theorem scorers_deterministic_up_to_year :
  forall (cm : CaseMapping) (env1 env2 : Env) (data : WebsiteData.t)
         (aiScore : Z),
    invoke env1 TraditionalSeo data aiScore
    = invoke env2 TraditionalSeo data aiScore
    /\ invoke env1 Geo data aiScore = invoke env2 Geo data aiScore
    /\ invoke env1 ContentSuggestions data aiScore
       = invoke env2 ContentSuggestions data aiScore
    /\ (let f1 := (analyzeAiPlatformVisibility env1.(fullYear) data)
                    .(AiVisibilityReport.factors) in
        let f2 := (analyzeAiPlatformVisibility env2.(fullYear) data)
                    .(AiVisibilityReport.factors) in
        firstn 10 f1 = firstn 10 f2 /\ skipn 11 f1 = skipn 11 f2)
    /\ (assessFreshness env1.(fullYear) data
        = assessFreshness env2.(fullYear) data ->
        invoke env1 AiPlatformVisibility data aiScore
        = invoke env2 AiPlatformVisibility data aiScore)
    /\ (env1.(fullYear) = env2.(fullYear) ->
        invoke env1 AiPlatformVisibility data aiScore
        = invoke env2 AiPlatformVisibility data aiScore).
Proof.
  intros cm env1 env2 data aiScore.
  assert (Hfresh :
    assessFreshness env1.(fullYear) data = assessFreshness env2.(fullYear) data ->
    invoke env1 AiPlatformVisibility data aiScore
    = invoke env2 AiPlatformVisibility data aiScore).
  { intros H. unfold invoke.
    rewrite !analyzeAiPlatformVisibility_unfold, !visibilityFactors_eq.
    cbn [fst snd]. rewrite H. reflexivity. }
  split; [reflexivity |].
  split; [reflexivity |].
  split; [reflexivity |].
  split; [| split].
  - rewrite !analyzeAiPlatformVisibility_unfold, !visibilityFactors_eq.
    cbn [AiVisibilityReport.factors fst firstn skipn].
    split; reflexivity.
  - exact Hfresh.
  - intros H. apply Hfresh. rewrite H. reflexivity.
Qed.

(** The page that mentions 2026, analysed in 2030 and in 2031. *)
Lemma scorers_deterministic_up_to_year_witness :
  assessFreshness (cm := asciiLower) 2030 datedPage
  = assessFreshness (cm := asciiLower) 2031 datedPage
  /\ invoke (cm := asciiLower) {| fullYear := 2030 |}
            AiPlatformVisibility datedPage 0
     = invoke (cm := asciiLower) {| fullYear := 2031 |}
              AiPlatformVisibility datedPage 0
  /\ invoke (cm := asciiLower) {| fullYear := 2030 |}
            AiPlatformVisibility datedPage 0
     = invoke (cm := asciiLower) {| fullYear := 2030 |}
              AiPlatformVisibility datedPage 0.
Proof.
  destruct (scorers_deterministic_up_to_year asciiLower
              {| fullYear := 2030 |} {| fullYear := 2031 |} datedPage 0)
    as [_ [_ [_ [_ [Hfresh _]]]]].
  destruct (scorers_deterministic_up_to_year asciiLower
              {| fullYear := 2030 |} {| fullYear := 2030 |} datedPage 0)
    as [_ [_ [_ [_ [_ Hyear]]]]].
  split; [vm_compute; reflexivity | split].
  - apply Hfresh. vm_compute. reflexivity.
  - apply Hyear. reflexivity.
Defined.

(** * Further properties of the analyzer *)

(** ** The range of the factor scores *)

Ltac closed_arith :=
  vm_compute; repeat split;
  solve [reflexivity | let H := fresh in intros H; discriminate H].

Ltac score_tac := unfold isScore, addIf; split_ifs; closed_arith.

Section FactorRange.
Context {cm : CaseMapping}.

Lemma assessCrawlability_values d :
  assessCrawlability d = 60 \/ assessCrawlability d = 80.
Proof. unfold assessCrawlability. split_ifs; [left | right]; reflexivity. Qed.

Lemma assessHtmlStructure_score d : isScore (assessHtmlStructure d).
Proof. unfold assessHtmlStructure. score_tac. Qed.

Lemma assessContentClarity_score d : isScore (assessContentClarity d).
Proof. unfold assessContentClarity. score_tac. Qed.

Lemma assessScanability_score d : isScore (assessScanability d).
Proof. unfold assessScanability. score_tac. Qed.

Lemma assessSummarySections_score d : isScore (assessSummarySections d).
Proof. unfold assessSummarySections. score_tac. Qed.

Lemma assessQaFormat_score d : isScore (assessQaFormat d).
Proof. unfold assessQaFormat. score_tac. Qed.

Lemma assessSchemaMarkup_score d : isScore (assessSchemaMarkup d).
Proof. unfold assessSchemaMarkup. score_tac. Qed.

Lemma assessTrustedEntities_score d : isScore (assessTrustedEntities d).
Proof. unfold assessTrustedEntities. score_tac. Qed.

Lemma assessDataFormats_score d :
  isScore (assessDataFormats d) /\ 20 <= assessDataFormats d.
Proof. unfold assessDataFormats. score_tac. Qed.

Lemma assessReadability_score d :
  isScore (assessReadability d) /\ 65 <= assessReadability d.
Proof. unfold assessReadability. score_tac. Qed.

Lemma assessFreshness_score year d : isScore (assessFreshness year d).
Proof. unfold assessFreshness. score_tac. Qed.

Lemma assessCredibility_score d :
  isScore (assessCredibility d) /\ 40 <= assessCredibility d.
Proof. unfold assessCredibility. score_tac. Qed.

End FactorRange.

(** X1. Each of the twelve factor scores of the report lies between 0 and
    100 and is a multiple of 5, whatever the page and the year. *)
Theorem factor_scores_in_range :
  forall (cm : CaseMapping) (currentYear : Z) (data : WebsiteData.t),
    Forall (fun f => 0 <= f.(Factor.score) <= 100
                     /\ f.(Factor.score) mod 5 = 0)
           (analyzeAiPlatformVisibility currentYear data)
             .(AiVisibilityReport.factors).
Proof.
  intros cm currentYear data.
  rewrite analyzeAiPlatformVisibility_unfold.
  cbn [AiVisibilityReport.factors]. rewrite visibilityFactors_eq. cbn [fst].
  repeat (apply Forall_cons; [cbn [Factor.score] |]); try apply Forall_nil.
  - destruct (assessCrawlability_values data) as [-> | ->]; closed_arith.
  - apply assessHtmlStructure_score.
  - apply assessContentClarity_score.
  - apply assessScanability_score.
  - apply assessSummarySections_score.
  - apply assessQaFormat_score.
  - apply assessSchemaMarkup_score.
  - apply assessTrustedEntities_score.
  - apply assessDataFormats_score.
  - apply assessReadability_score.
  - apply assessFreshness_score.
  - apply assessCredibility_score.
Qed.

(** ** The overall score *)

Lemma allTotals_spec n p :
  allTotals n p = true -> forall t, 0 <= t < Z.of_nat n -> p t = true.
Proof.
  unfold allTotals. rewrite forallb_forall. intros H t Ht.
  rewrite <- (Z2Nat.id t) by lia. apply H. apply in_seq. lia.
Qed.

Lemma overallOf_range t : 0 <= t <= 1200 -> 0 <= overallOf t <= 100.
Proof.
  intros Ht.
  assert (H : allTotals 1201
                (fun t => (0 <=? overallOf t) && (overallOf t <=? 100)) = true)
    by (vm_compute; reflexivity).
  pose proof (allTotals_spec _ _ H t ltac:(lia)) as Hb. cbv beta in Hb.
  apply andb_true_iff in Hb. lia.
Qed.

Lemma overallOf_step t : 0 <= t < 1200 -> overallOf t <= overallOf (t + 1).
Proof.
  intros Ht.
  assert (H : allTotals 1200 (fun t => overallOf t <=? overallOf (t + 1))
              = true) by (vm_compute; reflexivity).
  pose proof (allTotals_spec _ _ H t ltac:(lia)) as Hb. cbv beta in Hb. lia.
Qed.

(** The overall score grows with the total. *)
Lemma overallOf_monotone a b :
  0 <= a -> a <= b -> b <= 1200 -> overallOf a <= overallOf b.
Proof.
  intros Ha Hab Hb.
  replace b with (a + Z.of_nat (Z.to_nat (b - a))) in * by lia.
  induction (Z.to_nat (b - a)) as [| n IH].
  - rewrite Z.add_0_r. lia.
  - rewrite Nat2Z.inj_succ in *.
    pose proof (overallOf_step (a + Z.of_nat n) ltac:(lia)) as Hs.
    replace (a + Z.succ (Z.of_nat n)) with (a + Z.of_nat n + 1) by lia.
    specialize (IH ltac:(lia) ltac:(lia)). lia.
Qed.

Lemma overallOf_shift t :
  0 <= t <= 1140 -> overallOf (t + 60) <= overallOf t + 6.
Proof.
  intros Ht.
  assert (H : allTotals 1141 (fun t => overallOf (t + 60) <=? overallOf t + 6)
              = true) by (vm_compute; reflexivity).
  pose proof (allTotals_spec _ _ H t ltac:(lia)) as Hb. cbv beta in Hb. lia.
Qed.

Lemma overallOf_near a b :
  0 <= a -> a <= b -> b <= 1200 -> b <= a + 60 ->
  overallOf b <= overallOf a + 6.
Proof.
  intros Ha Hab Hb Hd.
  destruct (Z_le_gt_dec a 1140) as [Hs | Hs].
  - pose proof (overallOf_monotone b (a + 60) ltac:(lia) ltac:(lia) ltac:(lia)).
    pose proof (overallOf_shift a ltac:(lia)). lia.
  - pose proof (overallOf_monotone 1141 a ltac:(lia) ltac:(lia) ltac:(lia)) as H1.
    pose proof (overallOf_range b ltac:(lia)) as H2.
    assert (H3 : overallOf 1141 = 95) by (vm_compute; reflexivity). lia.
Qed.

Section OverallRange.
Context {cm : CaseMapping}.

Lemma timelessTotal_range d : 0 <= timelessTotal d <= 1100.
Proof.
  unfold timelessTotal.
  destruct (assessCrawlability_values d) as [Hc | Hc].
  all: pose proof (assessHtmlStructure_score d) as [? _];
    pose proof (assessContentClarity_score d) as [? _];
    pose proof (assessScanability_score d) as [? _];
    pose proof (assessSummarySections_score d) as [? _];
    pose proof (assessQaFormat_score d) as [? _];
    pose proof (assessSchemaMarkup_score d) as [? _];
    pose proof (assessTrustedEntities_score d) as [? _];
    pose proof (assessDataFormats_score d) as [[? _] _];
    pose proof (assessReadability_score d) as [[? _] _];
    pose proof (assessCredibility_score d) as [[? _] _]; lia.
Qed.

Lemma visibility_total year d :
  snd (visibilityFactors year d) = timelessTotal d + assessFreshness year d.
Proof.
  rewrite visibilityFactors_eq. cbn [snd]. unfold timelessTotal. lia.
Qed.

Lemma overallScore_eq year d :
  (analyzeAiPlatformVisibility year d).(AiVisibilityReport.overallScore)
  = overallOf (timelessTotal d + assessFreshness year d).
Proof.
  rewrite analyzeAiPlatformVisibility_unfold.
  cbn [AiVisibilityReport.overallScore]. rewrite visibility_total.
  reflexivity.
Qed.

(** The clock moves the freshness score by at most 60. *)
Lemma assessFreshness_clock y1 y2 d :
  assessFreshness y1 d <= assessFreshness y2 d + 60.
Proof.
  unfold assessFreshness, addIf.
  destruct (includes (toLowerCase (content d)) (toString y1)),
    (includes (toLowerCase (content d)) (toString (y1 - 1))),
    (includes (toLowerCase (content d)) (toString y2)),
    (includes (toLowerCase (content d)) (toString (y2 - 1)));
    split_ifs; closed_arith.
Qed.

End OverallRange.

(** X2. The overall score of the report lies between 0 and 100, whatever
    the page and the year. *)
Theorem overallScore_in_range :
  forall (cm : CaseMapping) (currentYear : Z) (data : WebsiteData.t),
    0 <= (analyzeAiPlatformVisibility currentYear data)
           .(AiVisibilityReport.overallScore) <= 100.
Proof.
  intros cm currentYear data. rewrite overallScore_eq.
  pose proof (timelessTotal_range data).
  pose proof (assessFreshness_score currentYear data) as [? _].
  apply overallOf_range. lia.
Qed.

(** X3. Analysing the same page in two different years moves the freshness
    score by at most 60 points and the overall score by at most 6. *)
Theorem clock_moves_overall_by_six :
  forall (cm : CaseMapping) (year1 year2 : Z) (data : WebsiteData.t),
    Z.abs (assessFreshness year1 data - assessFreshness year2 data) <= 60
    /\ Z.abs ((analyzeAiPlatformVisibility year1 data)
                .(AiVisibilityReport.overallScore)
              - (analyzeAiPlatformVisibility year2 data)
                  .(AiVisibilityReport.overallScore)) <= 6.
Proof.
  intros cm year1 year2 data.
  pose proof (assessFreshness_clock year1 year2 data) as H12.
  pose proof (assessFreshness_clock year2 year1 data) as H21.
  pose proof (assessFreshness_score year1 data) as [F1 _].
  pose proof (assessFreshness_score year2 data) as [F2 _].
  pose proof (timelessTotal_range data) as HT.
  split; [lia |].
  rewrite !overallScore_eq.
  set (t1 := timelessTotal data + assessFreshness year1 data).
  set (t2 := timelessTotal data + assessFreshness year2 data).
  assert (B1 : 0 <= t1 <= 1200) by (subst t1; lia).
  assert (B2 : 0 <= t2 <= 1200) by (subst t2; lia).
  assert (D : t1 <= t2 + 60 /\ t2 <= t1 + 60) by (subst t1 t2; lia).
  destruct (Z_le_gt_dec t1 t2) as [Hle | Hgt].
  - assert (N := overallOf_near t1 t2).
    assert (M := overallOf_monotone t1 t2). lia.
  - assert (N := overallOf_near t2 t1).
    assert (M := overallOf_monotone t2 t1). lia.
Qed.

(** ** Substrings *)

Lemma startsWith_iff (s p : jsstring) :
  startsWith s p = true <-> exists post, s = p ++ post.
Proof.
  revert s. induction p as [| c p IH]; intros s.
  - split; [intros _; exists s; reflexivity |].
    intros _. destruct s; reflexivity.
  - destruct s as [| d s]; cbn [startsWith app].
    + split; [discriminate | intros [post H]; discriminate H].
    + rewrite andb_true_iff, N.eqb_eq, IH. split.
      * intros [-> [post ->]]. exists post. reflexivity.
      * intros [post H]. injection H as -> ->. split; [reflexivity |].
        exists post. reflexivity.
Qed.

(** [s.includes(p)] holds exactly when [p] occurs in [s]. *)
Lemma includes_iff (s p : jsstring) :
  includes s p = true <-> exists pre post, s = pre ++ p ++ post.
Proof.
  induction s as [| d s IH].
  - cbn [includes]. rewrite orb_false_r, startsWith_iff. split.
    + intros [post H]. exists [], post. exact H.
    + intros [pre [post H]]. destruct pre as [| x pre]; [| discriminate H].
      exists post. exact H.
  - cbn [includes]. rewrite orb_true_iff, startsWith_iff, IH. split.
    + intros [[post H] | [pre [post H]]].
      * exists [], post. exact H.
      * exists (d :: pre), post. rewrite H. reflexivity.
    + intros [pre [post H]]. destruct pre as [| x pre].
      * left. exists post. exact H.
      * right. injection H as _ H. exists pre, post. exact H.
Qed.

Lemma includes_suffix (s a b : jsstring) :
  includes s (a ++ b) = true -> includes s b = true.
Proof.
  rewrite !includes_iff. intros [pre [post H]].
  exists (pre ++ a), post. rewrite H, <- !app_assoc. reflexivity.
Qed.

(** ** Failing factors *)

Lemma countStatus_cons st f fs :
  countStatus st (f :: fs)
  = (if Status.eqb f.(Factor.status) st then 1 else 0) + countStatus st fs.
Proof.
  unfold countStatus. cbn [filter].
  destruct (Status.eqb (Factor.status f) st); cbn [List.length]; lia.
Qed.

Lemma countStatus_nil st : countStatus st [] = 0.
Proof. reflexivity. Qed.

Lemma countStatus_total fs :
  countStatus Status.pass fs + countStatus Status.warning fs
  + countStatus Status.fail fs = Z.of_nat (List.length fs).
Proof.
  induction fs as [| f fs IH]; [reflexivity |].
  rewrite !countStatus_cons. cbn [List.length]. rewrite Nat2Z.inj_succ.
  destruct (Factor.status f); cbn [Status.eqb]; lia.
Qed.

Lemma indicator_range (b : bool) : 0 <= (if b then 1 else 0) <= 1.
Proof. destruct b; lia. Qed.

Lemma statusOf_not_fail s :
  50 <= s -> Status.eqb (statusOf s) Status.fail = false.
Proof.
  intros H. unfold statusOf.
  destruct (Z.leb_spec 80 s); destruct (Z.leb_spec 50 s);
    try reflexivity; lia.
Qed.

Lemma statusOf_fail s : s < 50 -> statusOf s = Status.fail.
Proof.
  intros H. unfold statusOf.
  destruct (Z.leb_spec 80 s); destruct (Z.leb_spec 50 s);
    try reflexivity; lia.
Qed.

(** X4. Public Crawlability (60 or 80) and Readability Level (at least 65)
    never fail, so a report has at most ten failing factors; its passing,
    warning and failing factors are twelve together. *)
Theorem at_most_ten_factors_fail :
  forall (cm : CaseMapping) (currentYear : Z) (data : WebsiteData.t),
    let fs := (analyzeAiPlatformVisibility currentYear data)
                .(AiVisibilityReport.factors) in
    countStatus Status.fail fs <= 10
    /\ countStatus Status.pass fs + countStatus Status.warning fs
       + countStatus Status.fail fs = 12
    /\ statusOf (assessCrawlability data) <> Status.fail
    /\ statusOf (assessReadability data) <> Status.fail.
Proof.
  intros cm currentYear data fs. subst fs.
  rewrite analyzeAiPlatformVisibility_unfold.
  cbn [AiVisibilityReport.factors].
  assert (Hc : Status.eqb (statusOf (assessCrawlability data)) Status.fail
               = false).
  { apply statusOf_not_fail.
    destruct (assessCrawlability_values data) as [-> | ->]; lia. }
  assert (Hr : Status.eqb (statusOf (assessReadability data)) Status.fail
               = false).
  { apply statusOf_not_fail.
    pose proof (assessReadability_score data) as [_ H]. lia. }
  split; [| split; [| split]].
  - rewrite visibilityFactors_eq. cbn [fst].
    rewrite !countStatus_cons, countStatus_nil. cbn [Factor.status].
    rewrite Hc, Hr.
    repeat match goal with
           | |- context [if ?b then 1 else 0] =>
             generalize (indicator_range b);
             generalize (if b then 1 else 0); intros ? ?
           end.
    lia.
  - rewrite countStatus_total, visibilityFactors_eq. reflexivity.
  - intros H. rewrite H in Hc. discriminate Hc.
  - intros H. rewrite H in Hr. discriminate Hr.
Qed.

(** ** Schema markup across the analyses *)

Lemma In_when {A : Type} (b : bool) (x y : A) :
  In y (when b x) <-> b = true /\ x = y.
Proof.
  unfold when. destruct b; cbn [In]; split.
  - intros [H | []]. split; [reflexivity | exact H].
  - intros [_ H]. left. exact H.
  - intros [].
  - intros [H _]. discriminate H.
Qed.

Ltac remedy_neq :=
  let H := fresh in
  intros [_ H];
  apply (f_equal
           (fun r => Js.eqb r.(Recommendation.action)
                            structuredDataRemedy.(Recommendation.action)))
    in H;
  vm_compute in H; discriminate H.

Section SchemaFacts.
Context {cm : CaseMapping}.

Lemma assessSchemaMarkup_schema d :
  if d.(hasSchema) then 50 <= assessSchemaMarkup d
  else assessSchemaMarkup d = 0.
Proof.
  unfold assessSchemaMarkup, addIf.
  destruct (hasSchema d); split_ifs; closed_arith.
Qed.

Lemma schema_isFail d : isFail (assessSchemaMarkup d) = negb d.(hasSchema).
Proof.
  pose proof (assessSchemaMarkup_schema d) as H. unfold isFail.
  destruct (hasSchema d); cbn [negb].
  - apply statusOf_not_fail. exact H.
  - rewrite H. reflexivity.
Qed.

End SchemaFacts.

(** X5. The Schema Markup factor fails exactly on the pages without schema
    markup, and the recommendation to implement structured data is in the
    report exactly for those pages. *)
Theorem structured_data_recommended_iff_no_schema :
  forall (cm : CaseMapping) (currentYear : Z) (data : WebsiteData.t),
    let r := analyzeAiPlatformVisibility currentYear data in
    (exists f,
        nth_error r.(AiVisibilityReport.factors) 6 = Some f
        /\ f.(Factor.factor) = lit "Schema Markup"
        /\ (f.(Factor.status) = Status.fail <-> data.(hasSchema) = false))
    /\ (In structuredDataRemedy r.(AiVisibilityReport.recommendations)
        <-> data.(hasSchema) = false).
Proof.
  intros cm currentYear data r. subst r.
  rewrite analyzeAiPlatformVisibility_unfold.
  cbn [AiVisibilityReport.factors AiVisibilityReport.recommendations].
  pose proof (schema_isFail data) as Hs. unfold isFail in Hs.
  split.
  - rewrite visibilityFactors_eq. cbn [fst nth_error].
    eexists. split; [reflexivity |]. cbn [Factor.factor Factor.status].
    split; [reflexivity |].
    destruct (hasSchema data); cbn [negb] in Hs;
      destruct (statusOf (assessSchemaMarkup data));
      cbn [Status.eqb] in Hs; split; intros H;
      try reflexivity; try discriminate H; discriminate Hs.
  - rewrite recommendations_eq, !in_app_iff, !In_when.
    fold (isFail (assessSchemaMarkup data)) in Hs. rewrite Hs.
    destruct (hasSchema data); cbn [negb]; split.
    + intros [H | [H | [H | [H | [H | H]]]]];
        try (destruct H as [H _]; discriminate H); revert H; remedy_neq.
    + intros H. discriminate H.
    + intros _. reflexivity.
    + intros _. right. right. left. split; reflexivity.
Qed.

(** ** The GEO rules against the factors *)

Lemma existsb_filter_length {A : Type} (f g : A -> bool) (l : list A) :
  (forall x, f x = true -> g x = true) ->
  existsb f l = true ->
  (0 <? Z.of_nat (List.length (filter g l))) = true.
Proof.
  intros Hfg. induction l as [| x l IH]; cbn [existsb filter].
  - discriminate.
  - destruct (f x) eqn:Hf.
    + intros _. rewrite (Hfg x Hf). cbn [List.length]. apply Z.ltb_lt. lia.
    + cbn [orb]. intros H. specialize (IH H). apply Z.ltb_lt in IH.
      destruct (g x); cbn [List.length]; apply Z.ltb_lt; lia.
Qed.

Section GeoAgainstFactors.
Context {cm : CaseMapping}.

Lemma h2_html d : hasH2Structure d = true -> 25 <= assessHtmlStructure d.
Proof.
  unfold hasH2Structure, assessHtmlStructure, addIf. intros ->.
  split_ifs; closed_arith.
Qed.

Lemma tldr_summary d : hasTldr d = true -> 30 <= assessSummarySections d.
Proof.
  unfold hasTldr, assessSummarySections, addIf.
  rewrite !orb_true_iff. intros [[H | H] | H].
  - rewrite H. cbn [orb]. split_ifs; closed_arith.
  - rewrite H. cbn [orb]. split_ifs; closed_arith.
  - change (lit "key takeaways") with (lit "key " ++ lit "takeaways") in H.
    apply includes_suffix in H. rewrite H, !orb_true_r.
    split_ifs; closed_arith.
Qed.

Lemma qa_factors d :
  hasQAFormat d = true ->
  30 <= assessQaFormat d \/ 25 <= assessContentClarity d.
Proof.
  unfold hasQAFormat. rewrite !orb_true_iff. intros [[[H | H] | H] | H].
  - right. unfold assessContentClarity, addIf. rewrite H. cbn [orb].
    split_ifs; closed_arith.
  - right. unfold assessContentClarity, addIf. rewrite H. cbn [orb].
    split_ifs; closed_arith.
  - right. unfold assessContentClarity, addIf. rewrite H, !orb_true_r.
    cbn [orb]. split_ifs; closed_arith.
  - left. unfold assessQaFormat, addIf.
    match goal with
    | |- context [filter ?g (headings d)] =>
      assert (Hq : (0 <? Z.of_nat (List.length (filter g (headings d))))
                   = true)
        by (apply (existsb_filter_length
                     (fun h => includes (toLowerCase h.(Heading.text)) "?") g);
            [intros x Hx; cbv beta; rewrite Hx; reflexivity | exact H])
    end.
    rewrite Hq. split_ifs; closed_arith.
Qed.

End GeoAgainstFactors.

(** X6. The two models of AI visibility agree on what they find: when a
    rule of [analyzeGeo] succeeds, the matching factor of
    [analyzeAiPlatformVisibility] has points. An H2 heading gives HTML
    Structure at least 25; summary content gives TL;DR & Summary at least
    30; question-answer format gives Q&A Format at least 30 or Content
    Clarity at least 25; schema markup gives Schema Markup at least 50. *)
Theorem geo_success_gives_factor_points :
  forall (cm : CaseMapping) (data : WebsiteData.t),
    (hasH2Structure data = true -> 25 <= assessHtmlStructure data)
    /\ (hasTldr data = true -> 30 <= assessSummarySections data)
    /\ (hasQAFormat data = true ->
        30 <= assessQaFormat data \/ 25 <= assessContentClarity data)
    /\ (data.(hasSchema) = true -> 50 <= assessSchemaMarkup data).
Proof.
  intros cm data. split; [| split; [| split]].
  - apply h2_html.
  - apply tldr_summary.
  - apply qa_factors.
  - intros H. pose proof (assessSchemaMarkup_schema data) as Hs.
    rewrite H in Hs. exact Hs.
Qed.

(** The page with the total 690 passes the four rules. *)
Lemma geo_success_gives_factor_points_witness :
  25 <= assessHtmlStructure page690
  /\ 30 <= assessSummarySections (cm := asciiLower) page690
  /\ (30 <= assessQaFormat (cm := asciiLower) page690
      \/ 25 <= assessContentClarity (cm := asciiLower) page690)
  /\ 50 <= assessSchemaMarkup page690.
Proof.
  destruct (geo_success_gives_factor_points asciiLower page690)
    as [H1 [H2 [H3 H4]]].
  split; [apply H1; vm_compute; reflexivity |].
  split; [apply H2; vm_compute; reflexivity |].
  split; [apply H3; vm_compute; reflexivity |].
  apply H4. reflexivity.
Defined.

(** ** The findings of analyzeTraditionalSeo *)

Lemma metaDescriptionRule_one d :
  exists f, fst (metaDescriptionRule d ([], 0)) = [f].
Proof. unfold metaDescriptionRule, push. split_ifs; eexists; reflexivity. Qed.

Lemma headingRule_one d : exists f, fst (headingRule d ([], 0)) = [f].
Proof. unfold headingRule, push. split_ifs; eexists; reflexivity. Qed.

Lemma schemaRule_one d : exists f, fst (schemaRule d ([], 0)) = [f].
Proof. unfold schemaRule, push. split_ifs; eexists; reflexivity. Qed.

Lemma loadTimeRule_one d : exists f, fst (loadTimeRule d ([], 0)) = [f].
Proof. unfold loadTimeRule, push. split_ifs; eexists; reflexivity. Qed.

Lemma imagesWithoutAlt_le d :
  0 <= imagesWithoutAlt d <= Z.of_nat (List.length d.(images)).
Proof.
  unfold imagesWithoutAlt.
  pose proof (filter_length_le (fun img => negb (Image.hasAlt img)) (images d)).
  lia.
Qed.

(** The image rule is silent exactly on a page without images. *)
Lemma imageRule_count d :
  List.length (fst (imageRule d ([], 0)))
  = match d.(images) with [] => 0%nat | _ :: _ => 1%nat end.
Proof.
  pose proof (imagesWithoutAlt_le d) as H.
  unfold imageRule, push.
  destruct (Z.ltb_spec 0 (imagesWithoutAlt d));
    destruct (Z.ltb_spec 0 (Z.of_nat (List.length (images d))));
    destruct (images d); cbn [List.length fst app] in *; try reflexivity; lia.
Qed.

(** X7. [analyzeTraditionalSeo] returns six findings for a page with
    images and five for a page without: the image rule alone can stay
    silent. *)
Theorem traditionalSeo_finding_count :
  forall data : WebsiteData.t,
    List.length (analyzeTraditionalSeo data).(ScoreResult.results)
    = match data.(images) with [] => 5%nat | _ :: _ => 6%nat end.
Proof.
  intros data.
  rewrite analyzeTraditionalSeo_unfold, traditionalSeoRules_split.
  cbn [ScoreResult.results fst].
  destruct (titleRule_one data) as [f1 ->].
  destruct (metaDescriptionRule_one data) as [f2 ->].
  destruct (headingRule_one data) as [f3 ->].
  destruct (schemaRule_one data) as [f5 ->].
  destruct (loadTimeRule_one data) as [f6 ->].
  rewrite !length_app, imageRule_count. cbn [List.length].
  destruct (images data); reflexivity.
Qed.

(** X8. The third finding of [analyzeTraditionalSeo] is the verdict on the
    H1 headings: an error when there is none, a success when there is
    exactly one, and a warning that carries the count under the key
    H1 tags when there are several. *)
Theorem h1_finding :
  forall data : WebsiteData.t,
    exists f,
      nth_error (analyzeTraditionalSeo data).(ScoreResult.results) 2 = Some f
      /\ f.(Finding.type)
         = (if h1Count data =? 0 then Kind.error
            else if h1Count data =? 1 then Kind.success
            else Kind.warning)
      /\ f.(Finding.metrics)
         = (if 1 <? h1Count data
            then Some [(lit "H1 tags", MNum (h1Count data))]
            else None).
Proof.
  intros data.
  rewrite analyzeTraditionalSeo_unfold, traditionalSeoRules_split.
  cbn [ScoreResult.results fst].
  destruct (titleRule_one data) as [f1 ->].
  destruct (metaDescriptionRule_one data) as [f2 ->].
  cbn [app nth_error].
  assert (Hn : 0 <= h1Count data) by (unfold h1Count; lia).
  unfold headingRule, push.
  destruct (Z.eqb_spec (h1Count data) 0);
    destruct (Z.ltb_spec 1 (h1Count data));
    destruct (Z.eqb_spec (h1Count data) 1);
    try lia; cbn [fst app nth_error]; eexists; repeat split.
Qed.

(** ** Perfect scores *)

Lemma truthy_length (s : jsstring) : truthy s = false -> Js.length s = 0.
Proof. destruct s; [reflexivity | discriminate]. Qed.

Lemma titleRule_full d :
  snd (titleRule d ([], 0)) = 20 <-> 30 <= Js.length d.(title) <= 60.
Proof.
  unfold titleRule, push.
  destruct (truthy (title d)) eqn:Ht; cbn [negb].
  - destruct (Z.ltb_spec (Js.length (title d)) 30);
      destruct (Z.ltb_spec 60 (Js.length (title d))); cbn [snd]; lia.
  - apply truthy_length in Ht. cbn [snd]. lia.
Qed.

Lemma metaDescriptionRule_full d :
  snd (metaDescriptionRule d ([], 0)) = 20
  <-> 120 <= Js.length d.(metaDescription) <= 160.
Proof.
  unfold metaDescriptionRule, push.
  destruct (truthy (metaDescription d)) eqn:Ht; cbn [negb].
  - destruct (Z.ltb_spec (Js.length (metaDescription d)) 120);
      destruct (Z.ltb_spec 160 (Js.length (metaDescription d)));
      cbn [snd]; lia.
  - apply truthy_length in Ht. cbn [snd]. lia.
Qed.

Lemma headingRule_full d :
  snd (headingRule d ([], 0)) = 15 <-> h1Count d = 1.
Proof.
  assert (Hn : 0 <= h1Count d) by (unfold h1Count; lia).
  unfold headingRule, push.
  destruct (Z.eqb_spec (h1Count d) 0); destruct (Z.ltb_spec 1 (h1Count d));
    cbn [snd]; lia.
Qed.

Lemma imageRule_full d :
  snd (imageRule d ([], 0)) = 15
  <-> imagesWithoutAlt d = 0 /\ d.(images) <> [].
Proof.
  pose proof (imagesWithoutAlt_le d) as H.
  unfold imageRule, push.
  destruct (Z.ltb_spec 0 (imagesWithoutAlt d));
    destruct (Z.ltb_spec 0 (Z.of_nat (List.length (images d))));
    destruct (images d); cbn [List.length snd] in *;
    split; try lia; try (intros [_ Hne]; congruence);
    intros _; split; try lia; discriminate.
Qed.

Lemma schemaRule_full d :
  snd (schemaRule d ([], 0)) = 15 <-> d.(hasSchema) = true.
Proof.
  unfold schemaRule, push.
  destruct (hasSchema d); cbn [negb snd]; split; intros H;
    try reflexivity; try discriminate H; lia.
Qed.

Lemma loadTimeRule_full d :
  snd (loadTimeRule d ([], 0)) = 15 <-> d.(loadTime) <= 3000.
Proof.
  unfold loadTimeRule, push.
  destruct (Z.ltb_spec 3000 (loadTime d)); cbn [snd]; lia.
Qed.

(** X9. [analyzeTraditionalSeo] scores 100 exactly on the pages with a
    title of 30 to 60 code units, a meta description of 120 to 160, one
    H1, at least one image and none without alt text, schema markup and a
    load time of at most 3000 ms; a page without images scores at most
    85. *)
Theorem traditionalSeo_perfect_score :
  forall data : WebsiteData.t,
    ((analyzeTraditionalSeo data).(ScoreResult.score) = 100
     <-> 30 <= Js.length data.(title) <= 60
         /\ 120 <= Js.length data.(metaDescription) <= 160
         /\ h1Count data = 1
         /\ (imagesWithoutAlt data = 0 /\ data.(images) <> [])
         /\ data.(hasSchema) = true
         /\ data.(loadTime) <= 3000)
    /\ (data.(images) = [] ->
        (analyzeTraditionalSeo data).(ScoreResult.score) <= 85).
Proof.
  intros data.
  rewrite analyzeTraditionalSeo_unfold, traditionalSeoRules_split.
  cbn [ScoreResult.score snd]. unfold maxScore.
  pose proof (titleRule_worth data) as W1.
  pose proof (metaDescriptionRule_worth data) as W2.
  pose proof (headingRule_worth data) as W3.
  pose proof (imageRule_worth data) as W4.
  pose proof (schemaRule_worth data) as W5.
  pose proof (loadTimeRule_worth data) as W6.
  rewrite <- titleRule_full, <- metaDescriptionRule_full,
    <- headingRule_full, <- imageRule_full, <- schemaRule_full,
    <- loadTimeRule_full.
  split; [lia |].
  intros Hi.
  assert (H4 : snd (imageRule data ([], 0)) <> 15).
  { rewrite imageRule_full. intros [_ Hne]. exact (Hne Hi). }
  assert (H4' : snd (imageRule data ([], 0)) = 0).
  { clear - Hi. unfold imageRule, imagesWithoutAlt, push. rewrite Hi.
    reflexivity. }
  lia.
Qed.

(** A page with nothing but a good title, a good meta description, one H1
    and schema markup. *)
Lemma traditionalSeo_perfect_score_witness :
  (analyzeTraditionalSeo
     (WebsiteData.mk (xs 30) (xs 120) [Heading.mk 1 "Guide"] [] [] "" true []
                     100 0)).(ScoreResult.score) <= 85.
Proof.
  apply (traditionalSeo_perfect_score
           (WebsiteData.mk (xs 30) (xs 120) [Heading.mk 1 "Guide"] [] [] ""
                           true [] 100 0)).
  reflexivity.
Defined.

(** ** The list of improvements *)

Lemma generateAiImprovements_cases data aiScore :
  generateAiImprovements data aiScore
  = (if aiScore <? 50
     then [tldrSection; faqSchema; clearHeadings; peopleAlsoAsk;
           datesAndStatistics; voiceSearch]
     else if aiScore <? 75
     then [clearHeadings; peopleAlsoAsk; datesAndStatistics;
           voiceSearch; comparisonTables]
     else if aiScore <? 85
     then [voiceSearch; comparisonTables]
     else [authoritativeSources; stepByStep; articleSchema]).
Proof.
  unfold generateAiImprovements, push, slice0.
  destruct (Z.ltb_spec aiScore 50); destruct (Z.ltb_spec aiScore 75);
    destruct (Z.ltb_spec aiScore 85); destruct (Z.leb_spec 85 aiScore);
    try lia; reflexivity.
Qed.

Ltac not_comparisonTables :=
  cbn [In];
  let H := fresh in
  intros H;
  repeat (destruct H as [H | H];
          [apply (f_equal Improvement.priority) in H; vm_compute in H;
           discriminate H |]);
  exact H.

(** X10. The list of [generateAiImprovements] is never empty and lists its
    items by strictly ascending priority. Below a score of 50 the cut at
    six removes the seventh item unlocked, so the comparison tables are
    suggested exactly for the scores from 50 to 84. *)
Theorem improvements_ascending :
  forall (data : WebsiteData.t) (aiScore : Z),
    generateAiImprovements data aiScore <> []
    /\ StronglySorted Z.lt (priorities (generateAiImprovements data aiScore))
    /\ (In comparisonTables (generateAiImprovements data aiScore)
        <-> 50 <= aiScore < 85).
Proof.
  intros data aiScore. rewrite generateAiImprovements_cases.
  destruct (Z.ltb_spec aiScore 50); [| destruct (Z.ltb_spec aiScore 75);
    [| destruct (Z.ltb_spec aiScore 85)]].
  all: split; [discriminate | split].
  all: try (unfold priorities; cbn [map Improvement.priority
              tldrSection faqSchema clearHeadings peopleAlsoAsk
              datesAndStatistics voiceSearch comparisonTables
              authoritativeSources stepByStep articleSchema];
            repeat apply SSorted_cons; try apply SSorted_nil;
            repeat apply Forall_cons; try apply Forall_nil; lia).
  - split; [| intros ?; exfalso; lia].
    intros Hin. exfalso. revert Hin. not_comparisonTables.
  - split; [intros _; lia |]. intros _. cbn [In]. do 4 right. left.
    reflexivity.
  - split; [intros _; lia |]. intros _. cbn [In]. right. left. reflexivity.
  - split; [| intros ?; exfalso; lia].
    intros Hin. exfalso. revert Hin. not_comparisonTables.
Qed.

(** ** Comparisons *)

Lemma categories_app ks ks' :
  categories (ks ++ ks') = categories ks ++ categories ks'.
Proof. unfold categories. apply map_app. Qed.

(** X11. Comparing the two sites the other way round negates the three
    differences and leaves the categories of [keyDifferences] as they are;
    the better performer changes sides, except on a tie of the summed
    differences, which goes to url1 either way. *)
Theorem compareWebsites_swapped :
  forall (data1 data2 : WebsiteData.t) (report1 report2 : AuditReport.t)
         (aiVisibility1 aiVisibility2 : AiVisibilityReport.t),
    let c := compareWebsites data1 report1 data2 report2
                             aiVisibility1 aiVisibility2 in
    let c' := compareWebsites data2 report2 data1 report1
                              aiVisibility2 aiVisibility1 in
    c'.(Differences.seoScoreDiff) = - c.(Differences.seoScoreDiff)
    /\ c'.(Differences.aiScoreDiff) = - c.(Differences.aiScoreDiff)
    /\ c'.(Differences.aiVisibilityDiff)
       = option_map Z.opp c.(Differences.aiVisibilityDiff)
    /\ categories c'.(Differences.keyDifferences)
       = categories c.(Differences.keyDifferences)
    /\ c'.(Differences.betterPerformer)
       = (if c.(Differences.seoScoreDiff) + c.(Differences.aiScoreDiff)
             + (aiVisibility2.(AiVisibilityReport.overallScore)
                - aiVisibility1.(AiVisibilityReport.overallScore)) =? 0
          then Performer.url1
          else otherPerformer c.(Differences.betterPerformer)).
Proof.
  intros data1 data2 report1 report2 aiVisibility1 aiVisibility2 c c'.
  subst c c'. unfold compareWebsites, seoDifferences, push, categories.
  cbn [Differences.seoScoreDiff Differences.aiScoreDiff
       Differences.aiVisibilityDiff Differences.betterPerformer
       Differences.keyDifferences option_map].
  set (seo := AuditReport.seoScore report2 - AuditReport.seoScore report1).
  set (ai := AuditReport.aiScore report2 - AuditReport.aiScore report1).
  set (vis := AiVisibilityReport.overallScore aiVisibility2
              - AiVisibilityReport.overallScore aiVisibility1).
  replace (AuditReport.seoScore report1 - AuditReport.seoScore report2)
    with (- seo) by (subst seo; lia).
  replace (AuditReport.aiScore report1 - AuditReport.aiScore report2)
    with (- ai) by (subst ai; lia).
  replace (AiVisibilityReport.overallScore aiVisibility1
           - AiVisibilityReport.overallScore aiVisibility2)
    with (- vis) by (subst vis; lia).
  rewrite !Z.abs_opp.
  split; [reflexivity | split; [reflexivity | split; [reflexivity | split]]].
  - destruct (10 <? Z.abs seo), (15 <? Z.abs vis), (10 <? Z.abs ai);
      reflexivity.
  - destruct (Z.ltb_spec 0 (- seo + - ai + - vis));
      destruct (Z.ltb_spec 0 (seo + ai + vis));
      destruct (Z.eqb_spec (seo + ai + vis) 0);
      try lia; reflexivity.
Qed.

(** X12. The key differences come in pairs and by category: two seo
    entries, then two visibility entries, then two ai entries, each pair
    present when its difference is large enough; the version without
    visibility reports gives two seo entries and three ai entries. Sites
    with equal scores get no key difference, and url1 is named. *)
Theorem keyDifferences_shape :
  forall (cm : CaseMapping) (data1 data2 : WebsiteData.t)
         (report1 report2 : AuditReport.t)
         (aiVisibility1 aiVisibility2 : AiVisibilityReport.t),
    let seo := report2.(AuditReport.seoScore) - report1.(AuditReport.seoScore) in
    let ai := report2.(AuditReport.aiScore) - report1.(AuditReport.aiScore) in
    let vis := aiVisibility2.(AiVisibilityReport.overallScore)
               - aiVisibility1.(AiVisibilityReport.overallScore) in
    categories (compareWebsites data1 report1 data2 report2 aiVisibility1
                                aiVisibility2).(Differences.keyDifferences)
    = (if 10 <? Z.abs seo then [Category.seo; Category.seo] else [])
      ++ (if 15 <? Z.abs vis
          then [Category.visibility; Category.visibility] else [])
      ++ (if 10 <? Z.abs ai then [Category.ai; Category.ai] else [])
    /\ categories (Earlier.compareWebsites data1 report1 data2 report2)
                    .(Differences.keyDifferences)
       = (if 10 <? Z.abs seo then [Category.seo; Category.seo] else [])
         ++ (if 10 <? Z.abs ai
             then [Category.ai; Category.ai; Category.ai] else [])
    /\ (compareWebsites data1 report1 data2 report1 aiVisibility1
                        aiVisibility1).(Differences.keyDifferences) = []
    /\ (compareWebsites data1 report1 data2 report1 aiVisibility1
                        aiVisibility1).(Differences.betterPerformer)
       = Performer.url1.
Proof.
  intros cm data1 data2 report1 report2 aiVisibility1 aiVisibility2
         seo ai vis.
  unfold compareWebsites, Earlier.compareWebsites, seoDifferences, push,
    categories.
  cbn [Differences.keyDifferences Differences.betterPerformer].
  fold seo ai vis. rewrite !Z.sub_diag.
  split; [| split; [| split]].
  - destruct (10 <? Z.abs seo), (15 <? Z.abs vis), (10 <? Z.abs ai);
      reflexivity.
  - destruct (10 <? Z.abs seo), (10 <? Z.abs ai); reflexivity.
  - reflexivity.
  - reflexivity.
Qed.

(** * Properties of the storage and of the analyze route *)

(** ** Maps *)

Lemma eqb_eq (s t : jsstring) : Js.eqb s t = true <-> s = t.
Proof.
  revert t. induction s as [| c s IH]; intros [| d t]; cbn [Js.eqb].
  - split; reflexivity.
  - split; discriminate.
  - split; discriminate.
  - rewrite andb_true_iff, N.eqb_eq, IH. split.
    + intros [-> ->]. reflexivity.
    + intros H. injection H as -> ->. split; reflexivity.
Qed.

Section MapFacts.
Context {V : Type}.
Implicit Types (m : JsMap.t V) (k : Z) (v : V).

Lemma get_set k k' v m :
  JsMap.get k' (JsMap.set k v m)
  = if k' =? k then Some v else JsMap.get k' m.
Proof.
  induction m as [| [k0 v0] m IH]; cbn [JsMap.set JsMap.get].
  - rewrite Z.eqb_sym. destruct (Z.eqb_spec k' k); reflexivity.
  - destruct (Z.eqb_spec k0 k) as [-> | Hne]; cbn [JsMap.get].
    + rewrite (Z.eqb_sym k k').
      destruct (Z.eqb_spec k' k); reflexivity.
    + rewrite IH. destruct (Z.eqb_spec k0 k') as [-> | Hne'].
      * destruct (Z.eqb_spec k' k); [contradiction | reflexivity].
      * reflexivity.
Qed.

(** A key that is not in the map is added at the end. *)
Lemma set_fresh k v m :
  ~ In k (map fst m) -> JsMap.set k v m = m ++ [(k, v)].
Proof.
  induction m as [| [k0 v0] m IH]; cbn [JsMap.set map fst In app];
    intros Hn.
  - reflexivity.
  - destruct (Z.eqb_spec k0 k) as [-> | Hne].
    + exfalso. apply Hn. left. reflexivity.
    + rewrite IH; [reflexivity |]. intros H. apply Hn. right. exact H.
Qed.

(** In a map whose keys are [base], [base + 1], ... the key tells the
    position. *)
Lemma get_consecutive m :
  forall base k,
    map fst m = map Z.of_nat (seq base (List.length m)) ->
    JsMap.get k m
    = if (Z.of_nat base <=? k) && (k <? Z.of_nat (base + List.length m))
      then nth_error (JsMap.values m) (Z.to_nat (k - Z.of_nat base))
      else None.
Proof.
  induction m as [| [k0 v0] m IH]; intros base k Hk;
    cbn [JsMap.get JsMap.values map List.length seq fst snd] in *.
  - destruct (Z.leb_spec (Z.of_nat base) k);
      destruct (Z.ltb_spec k (Z.of_nat (base + 0))); cbn [andb];
      try reflexivity; lia.
  - injection Hk as -> Hk. specialize (IH (S base) k Hk).
    fold (JsMap.values m) in *.
    destruct (Z.eqb_spec (Z.of_nat base) k) as [<- | Hne].
    + rewrite Z.leb_refl, Z.sub_diag.
      destruct (Z.ltb_spec (Z.of_nat base)
                           (Z.of_nat (base + S (List.length m))));
        [reflexivity | lia].
    + rewrite IH.
      destruct (Z.leb_spec (Z.of_nat (S base)) k);
        destruct (Z.ltb_spec k (Z.of_nat (S base + List.length m)));
        destruct (Z.leb_spec (Z.of_nat base) k);
        destruct (Z.ltb_spec k (Z.of_nat (base + S (List.length m))));
        cbn [andb]; try reflexivity; try lia.
      replace (Z.to_nat (k - Z.of_nat base))
        with (S (Z.to_nat (k - Z.of_nat (S base)))) by lia.
      reflexivity.
Qed.

End MapFacts.

(** ** Stores reached from the empty store *)

Lemma idsTo_snoc n : idsTo (S n) = idsTo n ++ [Z.of_nat (S n)].
Proof.
  unfold idsTo. rewrite seq_S, map_app. reflexivity.
Qed.

Lemma idsTo_bound n k : In k (idsTo n) -> 1 <= k <= Z.of_nat n.
Proof.
  unfold idsTo. rewrite in_map_iff. intros [x [<- Hx]].
  apply in_seq in Hx. lia.
Qed.

Lemma createAll_snoc inputs i st :
  createAll (inputs ++ [i]) st
  = fst (MemStorage.createAuditReport (createAll inputs st) (fst i) (snd i)).
Proof. unfold createAll. rewrite fold_left_app. reflexivity. Qed.

(** The invariant of the stores reached from [new MemStorage()]: the keys
    are 1, ..., n in this order, each report is stored under its id, and
    the next id is n + 1. *)
Lemma createAll_invariant inputs :
  let st := createAll inputs MemStorage.new in
  map fst st.(MemStorage.reports) = idsTo (List.length inputs)
  /\ map StoredReport.id (MemStorage.getAllAuditReports st)
     = idsTo (List.length inputs)
  /\ created st = inputs
  /\ st.(MemStorage.currentId) = Z.of_nat (List.length inputs) + 1.
Proof.
  induction inputs as [| i inputs IH] using rev_ind.
  - repeat split.
  - cbv zeta in *. rewrite createAll_snoc.
    destruct IH as [Hk [Hi [Hc Hn]]].
    set (st := createAll inputs MemStorage.new) in *.
    unfold MemStorage.createAuditReport, created,
      MemStorage.getAllAuditReports, JsMap.values in *.
    cbn [fst MemStorage.reports MemStorage.currentId].
    rewrite set_fresh.
    + rewrite length_app, Nat.add_1_r, idsTo_snoc, !map_app, !map_map in *.
      cbn [map fst snd StoredReport.id StoredReport.fields
           StoredReport.createdAt List.length].
      rewrite Hk, Hi, Hc, Hn.
      replace (Z.of_nat (List.length inputs) + 1)
        with (Z.of_nat (S (List.length inputs))) by lia.
      destruct i. repeat split.
    + rewrite Hk, Hn. intros H. apply idsTo_bound in H. lia.
Qed.

(** X13. A report can be read back under the id [createAuditReport]
    returned, with the fields given and the time of creation; the lookup of
    every other id answers as before, and the next id is one higher. *)
Theorem create_then_get :
  forall (st : MemStorage.t) (insertReport : InsertAuditReport.t)
         (now id : Z),
    let st' := fst (MemStorage.createAuditReport st insertReport now) in
    let report := snd (MemStorage.createAuditReport st insertReport now) in
    MemStorage.getAuditReport st' report.(StoredReport.id) = Some report
    /\ report.(StoredReport.fields) = insertReport
    /\ report.(StoredReport.createdAt) = now
    /\ MemStorage.getAuditReport st' id
       = (if id =? report.(StoredReport.id) then Some report
          else MemStorage.getAuditReport st id)
    /\ st'.(MemStorage.currentId) = report.(StoredReport.id) + 1.
Proof.
  intros st insertReport now id st' report. subst st' report.
  unfold MemStorage.createAuditReport, MemStorage.getAuditReport.
  cbn [fst snd MemStorage.reports MemStorage.currentId StoredReport.id
       StoredReport.fields StoredReport.createdAt].
  rewrite !get_set, Z.eqb_refl. repeat split.
Qed.

(** X14. After any sequence of creations on a new store,
    [getAllAuditReports] returns the reports in the order of creation, with
    the ids 1, 2, ..., n and the fields and times given. *)
Theorem ids_are_consecutive :
  forall inputs : list (InsertAuditReport.t * Z),
    let st := createAll inputs MemStorage.new in
    map StoredReport.id (MemStorage.getAllAuditReports st)
    = idsTo (List.length inputs)
    /\ created st = inputs
    /\ st.(MemStorage.currentId) = Z.of_nat (List.length inputs) + 1.
Proof.
  intros inputs st. subst st.
  destruct (createAll_invariant inputs) as [_ [Hi [Hc Hn]]].
  repeat split; assumption.
Qed.

(** X15. On such a store [getAuditReport(id)] is the report created in the
    position [id] for the ids from 1 to n, and undefined for every other
    id. *)
Theorem lookup_by_id :
  forall (inputs : list (InsertAuditReport.t * Z)) (id : Z),
    let st := createAll inputs MemStorage.new in
    MemStorage.getAuditReport st id
    = (if (1 <=? id) && (id <=? Z.of_nat (List.length inputs))
       then nth_error (MemStorage.getAllAuditReports st) (Z.to_nat (id - 1))
       else None).
Proof.
  intros inputs id st. subst st.
  destruct (createAll_invariant inputs) as [Hk [Hi _]].
  set (st := createAll inputs MemStorage.new) in *.
  assert (Hlen : List.length st.(MemStorage.reports) = List.length inputs).
  { apply (f_equal (@List.length Z)) in Hk.
    unfold idsTo in Hk. rewrite !length_map, length_seq in Hk. exact Hk. }
  unfold MemStorage.getAuditReport, MemStorage.getAllAuditReports.
  rewrite (get_consecutive _ 1 id).
  - rewrite Hlen. change (Z.of_nat 1) with 1.
    replace (id <? Z.of_nat (1 + List.length inputs))
      with (id <=? Z.of_nat (List.length inputs)); [reflexivity |].
    destruct (Z.leb_spec id (Z.of_nat (List.length inputs)));
      destruct (Z.ltb_spec id (Z.of_nat (1 + List.length inputs)));
      try reflexivity; lia.
  - rewrite Hlen. exact Hk.
Qed.

(** X16. A creation on such a store adds the new report after the others
    and changes none of them. *)
Theorem create_appends :
  forall (inputs : list (InsertAuditReport.t * Z))
         (insertReport : InsertAuditReport.t) (now : Z),
    let st := createAll inputs MemStorage.new in
    MemStorage.getAllAuditReports
      (fst (MemStorage.createAuditReport st insertReport now))
    = MemStorage.getAllAuditReports st
      ++ [snd (MemStorage.createAuditReport st insertReport now)].
Proof.
  intros inputs insertReport now st. subst st.
  destruct (createAll_invariant inputs) as [Hk [_ [_ Hn]]].
  set (st := createAll inputs MemStorage.new) in *.
  unfold MemStorage.createAuditReport, MemStorage.getAllAuditReports,
    JsMap.values.
  cbn [fst snd MemStorage.reports].
  rewrite set_fresh.
  - rewrite map_app. reflexivity.
  - rewrite Hk, Hn. intros H. apply idsTo_bound in H. lia.
Qed.

Lemma filter_map_comm {A B : Type} (f : A -> B) (p : B -> bool) (l : list A) :
  filter p (map f l) = map f (filter (fun x => p (f x)) l).
Proof.
  induction l as [| x l IH]; [reflexivity |].
  cbn [map filter]. destruct (p (f x)); cbn [map]; rewrite IH; reflexivity.
Qed.

(** X17. On such a store [getAuditReportsByUrl(url)] returns, in the order
    of creation, exactly the reports created with this url: each of them
    has the url, and they are as many as the creations with it. *)
Theorem lookup_by_url :
  forall (inputs : list (InsertAuditReport.t * Z)) (url : jsstring),
    let st := createAll inputs MemStorage.new in
    let found := MemStorage.getAuditReportsByUrl st url in
    Forall (fun r => StoredReport.url r = url) found
    /\ map (fun r => (r.(StoredReport.fields), r.(StoredReport.createdAt)))
           found
       = filter (fun i => Js.eqb (fst i).(InsertAuditReport.url) url) inputs.
Proof.
  intros inputs url st found. subst found.
  destruct (createAll_invariant inputs) as [_ [_ [Hc _]]]. fold st in Hc.
  unfold MemStorage.getAuditReportsByUrl. split.
  - apply Forall_forall. intros r Hr. apply filter_In in Hr.
    apply eqb_eq. apply Hr.
  - clearbody st. rewrite <- Hc. unfold created, MemStorage.getAllAuditReports.
    rewrite filter_map_comm. reflexivity.
Qed.

(** ** The analyze route *)

(** X18. Whatever the flags of the request, the report that the analyze
    route stores has both scores between 0 and 100 and can be read back
    under its id; an analysis that is switched off contributes the score 0
    and no finding, one that is switched on contributes five GEO findings
    and five or six SEO findings. *)
Theorem analyzeRoute_report :
  forall (cm : CaseMapping) (storage : MemStorage.t) (now : Z)
         (url : jsstring)
         (includeTraditionalSeo includeGeo includeContentSuggestions : bool)
         (websiteData : WebsiteData.t),
    let out := analyzeRoute storage now url includeTraditionalSeo includeGeo
                            includeContentSuggestions websiteData in
    let r := (snd out).(StoredReport.fields) in
    0 <= r.(InsertAuditReport.seoScore) <= 100
    /\ 0 <= r.(InsertAuditReport.aiScore) <= 100
    /\ MemStorage.getAuditReport (fst out) (snd out).(StoredReport.id)
       = Some (snd out)
    /\ r.(InsertAuditReport.url) = url
    /\ (if includeTraditionalSeo
        then List.length r.(InsertAuditReport.traditionalSeoResults)
             = match websiteData.(images) with
               | [] => 5%nat
               | _ :: _ => 6%nat
               end
        else r.(InsertAuditReport.seoScore) = 0
             /\ r.(InsertAuditReport.traditionalSeoResults) = [])
    /\ (if includeGeo
        then List.length r.(InsertAuditReport.geoResults) = 5%nat
        else r.(InsertAuditReport.aiScore) = 0
             /\ r.(InsertAuditReport.geoResults) = []).
Proof.
  intros cm storage now url includeTraditionalSeo includeGeo
         includeContentSuggestions websiteData out r.
  subst r out. unfold analyzeRoute.
  unfold MemStorage.createAuditReport, MemStorage.getAuditReport.
  cbn [fst snd StoredReport.fields StoredReport.id MemStorage.reports
       InsertAuditReport.seoScore InsertAuditReport.aiScore
       InsertAuditReport.url InsertAuditReport.traditionalSeoResults
       InsertAuditReport.geoResults].
  rewrite get_set, Z.eqb_refl.
  pose proof (traditionalSeoRules_raw websiteData) as Ht.
  pose proof (geoRules_raw websiteData) as Hg.
  split; [| split; [| split; [reflexivity | split; [reflexivity | split]]]].
  - destruct includeTraditionalSeo; cbn [ScoreResult.score]; [| lia].
    rewrite analyzeTraditionalSeo_unfold. cbn [ScoreResult.score].
    unfold maxScore. lia.
  - destruct includeGeo; cbn [ScoreResult.score]; [| lia].
    rewrite analyzeGeo_unfold. cbn [ScoreResult.score]. unfold maxScore. lia.
  - destruct includeTraditionalSeo; cbn [ScoreResult.score ScoreResult.results].
    + rewrite analyzeTraditionalSeo_unfold, traditionalSeoRules_split.
      cbn [ScoreResult.results fst].
      destruct (titleRule_one websiteData) as [f1 ->].
      destruct (metaDescriptionRule_one websiteData) as [f2 ->].
      destruct (headingRule_one websiteData) as [f3 ->].
      destruct (schemaRule_one websiteData) as [f5 ->].
      destruct (loadTimeRule_one websiteData) as [f6 ->].
      rewrite !length_app, imageRule_count. cbn [List.length].
      destruct (images websiteData); reflexivity.
    + split; reflexivity.
  - destruct includeGeo; cbn [ScoreResult.score ScoreResult.results].
    + rewrite analyzeGeo_unfold, geoRules_split.
      cbn [ScoreResult.results fst].
      destruct (geoStructureRule_outcome websiteData) as [f1 [-> _]].
      destruct (geoTldrRule_outcome websiteData) as [f2 [-> _]].
      destruct (geoQaRule_outcome websiteData) as [f3 [-> _]].
      destruct (geoSchemaRule_outcome websiteData) as [f4 [-> _]].
      destruct (geoEntityRule_outcome websiteData) as [f5 [-> _]].
      reflexivity.
    + split; reflexivity.
Qed.

(** * Edge cases of the heuristics *)

(** ** Division by zero *)

Lemma div_zero_left b : b <> 0 -> Num.lt (Num.div 0 b) 15 = true.
Proof.
  intros Hb. unfold Num.div.
  destruct (Z.eqb_spec b 0) as [-> | _]; [contradiction |].
  destruct b; [contradiction | reflexivity | reflexivity].
Qed.

Lemma div_zero_right (n : nat) (c : Q) :
  Num.lt (Num.div (Z.of_nat n) 0) c = false.
Proof.
  unfold Num.div. cbn [Z.eqb].
  destruct (Z.of_nat n) eqn:E; try reflexivity. lia.
Qed.

(** X19. A page whose word count is 0 has the readability score 85,
    whatever its content: the average sentence length is 0, and the ratio
    of complex words, a division by zero, earns no bonus. *)
Theorem readability_without_words :
  forall data : WebsiteData.t,
    data.(wordCount) = 0 -> assessReadability data = 85.
Proof.
  intros data Hw. unfold assessReadability. rewrite Hw.
  rewrite !div_zero_right.
  rewrite div_zero_left; [reflexivity |].
  destruct (Z.eqb_spec (Z.of_nat (List.length (split (content data) "."))) 0);
    [discriminate | assumption].
Qed.

Lemma readability_without_words_witness : assessReadability emptyPage = 85.
Proof. apply (readability_without_words emptyPage). reflexivity. Defined.

(** ** Short content *)

Lemma trimStart_length (s : jsstring) :
  (List.length (trimStart s) <= List.length s)%nat.
Proof.
  induction s as [| c s IH]; cbn [trimStart]; [lia |].
  destruct (isSpace c); cbn [List.length]; lia.
Qed.

Lemma trim_length (s : jsstring) :
  (List.length (trim s) <= List.length s)%nat.
Proof.
  unfold trim. rewrite length_rev.
  pose proof (trimStart_length (rev (trimStart s))) as H1.
  rewrite length_rev in H1.
  pose proof (trimStart_length s). lia.
Qed.

(** No piece of a split is longer than the string. *)
Lemma splitFrom_length sep (s : jsstring) :
  forall skip cur p,
    In p (splitFrom sep skip cur s) ->
    (List.length p <= List.length cur + List.length s)%nat.
Proof.
  induction s as [| c s IH]; intros skip cur p; cbn [splitFrom In].
  - intros [<- | []]. rewrite length_rev. lia.
  - destruct skip as [| k].
    + destruct (startsWith (c :: s) sep); cbn [In List.length].
      * intros [<- | H]; [rewrite length_rev; lia |].
        apply IH in H. cbn [List.length] in H. lia.
      * intros H. apply IH in H. cbn [List.length] in *. lia.
    + intros H. apply IH in H. cbn [List.length]. lia.
Qed.

Lemma filter_none {A : Type} (f : A -> bool) (l : list A) :
  (forall x, In x l -> f x = false) -> filter f l = [].
Proof.
  induction l as [| x l IH]; intros H; [reflexivity |].
  cbn [filter]. rewrite (H x (or_introl eq_refl)).
  apply IH. intros y Hy. apply H. right. exact Hy.
Qed.

Lemma no_long_paragraph (s : jsstring) :
  Js.length s <= 50 ->
  filter (fun p => 50 <? Js.length (trim p)) (split s blankLine) = [].
Proof.
  intros Hs. apply filter_none. intros p Hp.
  apply splitFrom_length in Hp. pose proof (trim_length p) as Ht.
  unfold Js.length in *. cbn [List.length] in Hp.
  apply Z.ltb_ge. lia.
Qed.

(** X20. A page whose content has at most 50 code units has no paragraph
    that counts: the average paragraph length is 0/0, the paragraph rule
    gives its lowest 10 points, and Content Scannability stays at 70 or
    below, so that it never passes. *)
Theorem short_content_scannability :
  forall data : WebsiteData.t,
    Js.length data.(content) <= 50 ->
    10 <= assessScanability data <= 70
    /\ statusOf (assessScanability data) <> Status.pass.
Proof.
  intros data Hs.
  assert (H : 10 <= assessScanability data <= 70).
  { unfold assessScanability. rewrite (no_long_paragraph _ Hs).
    cbn [fold_left List.length Z.of_nat]. unfold addIf.
    change (Num.lt (Num.div 0 0) 300) with false.
    change (Num.lt (Num.div 0 0) 500) with false.
    split_ifs; closed_arith. }
  split; [exact H |].
  intros Hp. apply statusOf_spec in Hp. lia.
Qed.

Lemma short_content_scannability_witness :
  10 <= assessScanability emptyPage <= 70
  /\ statusOf (assessScanability emptyPage) <> Status.pass.
Proof.
  apply (short_content_scannability emptyPage). vm_compute. discriminate.
Defined.

(** ** What the rule-based scorers read *)

(** X21. [analyzeGeo] reads the headings, the content and the schema flag
    of a page and nothing else; [analyzeTraditionalSeo] reads neither the
    content, nor the links, nor the word count. *)
Theorem scorers_ignore_other_fields :
  forall (cm : CaseMapping) (data data' : WebsiteData.t),
    (data.(headings) = data'.(headings) ->
     data.(content) = data'.(content) ->
     data.(hasSchema) = data'.(hasSchema) ->
     analyzeGeo data = analyzeGeo data')
    /\ (data.(title) = data'.(title) ->
        data.(metaDescription) = data'.(metaDescription) ->
        data.(headings) = data'.(headings) ->
        data.(images) = data'.(images) ->
        data.(hasSchema) = data'.(hasSchema) ->
        data.(schemaTypes) = data'.(schemaTypes) ->
        data.(loadTime) = data'.(loadTime) ->
        analyzeTraditionalSeo data = analyzeTraditionalSeo data').
Proof.
  intros cm data data'. destruct data, data'.
  cbn [title metaDescription headings images content hasSchema schemaTypes
       loadTime].
  split.
  - intros -> -> ->. reflexivity.
  - intros -> -> -> -> -> -> ->. reflexivity.
Qed.

(** A page with and without its title; a page with and without content and
    words. *)
Lemma scorers_ignore_other_fields_witness :
  analyzeGeo (cm := asciiLower) (sized 30 160)
  = analyzeGeo (cm := asciiLower) (withTitle (sized 30 160) [])
  /\ analyzeTraditionalSeo
       (WebsiteData.mk "" "" [] [] [] "" false [] 100 0)
     = analyzeTraditionalSeo
         (WebsiteData.mk "" "" [] [] [] "Updated guide for 2026" false []
                         100 4).
Proof.
  split.
  - apply (scorers_ignore_other_fields asciiLower (sized 30 160)
             (withTitle (sized 30 160) [])); reflexivity.
  - apply (scorers_ignore_other_fields asciiLower
             (WebsiteData.mk "" "" [] [] [] "" false [] 100 0)
             (WebsiteData.mk "" "" [] [] [] "Updated guide for 2026" false
                             [] 100 4)); reflexivity.
Defined.

(** * The overall score against the exact percentage *)

Lemma mod5_add a b : a mod 5 = 0 -> b mod 5 = 0 -> (a + b) mod 5 = 0.
Proof.
  intros Ha Hb. rewrite Z.add_mod by discriminate. rewrite Ha, Hb.
  reflexivity.
Qed.

Section ExactPercent.
Context {cm : CaseMapping}.

Lemma timelessTotal_mod5 d : timelessTotal d mod 5 = 0.
Proof.
  unfold timelessTotal.
  pose proof (assessHtmlStructure_score d) as [_ H1].
  pose proof (assessContentClarity_score d) as [_ H2].
  pose proof (assessScanability_score d) as [_ H3].
  pose proof (assessSummarySections_score d) as [_ H4].
  pose proof (assessQaFormat_score d) as [_ H5].
  pose proof (assessSchemaMarkup_score d) as [_ H6].
  pose proof (assessTrustedEntities_score d) as [_ H7].
  pose proof (assessDataFormats_score d) as [[_ H8] _].
  pose proof (assessReadability_score d) as [[_ H9] _].
  pose proof (assessCredibility_score d) as [[_ H10] _].
  assert (H0 : assessCrawlability d mod 5 = 0)
    by (destruct (assessCrawlability_values d) as [-> | ->]; reflexivity).
  repeat apply mod5_add; assumption.
Qed.

(** On the totals that are multiples of 5 the doubles lose one half, the
    one at 690. *)
Lemma overallOf_exact t :
  0 <= t <= 1200 -> t mod 5 = 0 ->
  overallOf t = (if t =? 690 then 57 else exactPercent t).
Proof.
  intros Ht Hm.
  assert (H : allTotals 1201
                (fun t => if t mod 5 =? 0
                          then overallOf t
                               =? (if t =? 690 then 57 else exactPercent t)
                          else true) = true)
    by (vm_compute; reflexivity).
  pose proof (allTotals_spec _ _ H t ltac:(lia)) as Hb. cbv beta in Hb.
  rewrite Hm in Hb. cbn [Z.eqb] in Hb. apply Z.eqb_eq in Hb. exact Hb.
Qed.

End ExactPercent.

(** C3. The report of [analyzeAiPlatformVisibility] has twelve factors, a
    status for each that is pass exactly from 80, warning exactly from 50
    to 79 and fail exactly below 50, and at most eight recommendations.
    Its overall score is the exactly rounded percentage
    round(sum of the factor scores / 1200 * 100) for every sum of factor
    scores but one: at the sum 690 the analyzer returns 57, where the
    percentage 57.5 rounds to 58, because it divides before it multiplies
    and the double it rounds is 57.49999999999999. The page [page690]
    has this sum. *)
Theorem overallScore_loses_half_at_690 :
  forall (cm : CaseMapping) (currentYear : Z) (data : WebsiteData.t),
    let r := analyzeAiPlatformVisibility currentYear data in
    let total := sumScores r.(AiVisibilityReport.factors) in
    List.length r.(AiVisibilityReport.factors) = 12%nat
    /\ r.(AiVisibilityReport.overallScore)
       = (if total =? 690 then 57 else exactPercent total)
    /\ exactPercent 690 = 58
    /\ sumScores (analyzeAiPlatformVisibility (cm := asciiLower) 2026 page690)
                   .(AiVisibilityReport.factors) = 690
    /\ (analyzeAiPlatformVisibility (cm := asciiLower) 2026 page690)
         .(AiVisibilityReport.overallScore) = 57
    /\ Forall (fun f =>
                 (f.(Factor.status) = Status.pass <-> 80 <= f.(Factor.score))
                 /\ (f.(Factor.status) = Status.warning
                     <-> 50 <= f.(Factor.score) < 80)
                 /\ (f.(Factor.status) = Status.fail <-> f.(Factor.score) < 50))
              r.(AiVisibilityReport.factors)
    /\ (List.length r.(AiVisibilityReport.recommendations) <= 8)%nat.
Proof.
  intros cm currentYear data r total.
  destruct (aiVisibility_report_shape cm currentYear data)
    as [Hlen [_ [Hstatus Hrecs]]].
  fold r in Hlen, Hstatus, Hrecs.
  split; [exact Hlen |].
  split.
  - subst total r. rewrite overallScore_eq.
    rewrite analyzeAiPlatformVisibility_unfold.
    cbn [AiVisibilityReport.factors].
    rewrite <- visibilityFactors_total, visibility_total.
    pose proof (timelessTotal_range data) as HT.
    pose proof (timelessTotal_mod5 data) as HM.
    pose proof (assessFreshness_score currentYear data) as [HF HFm].
    apply overallOf_exact; [lia | apply mod5_add; assumption].
  - split; [vm_compute; reflexivity |].
    split; [vm_compute; reflexivity |].
    split; [vm_compute; reflexivity |].
    split; [exact Hstatus | exact Hrecs].
Qed.
